(** * CMS hospital data pipeline: a shallow embedding of [main_script.py]

    The development follows the class [CMSHospitalDataPipeline] method by
    method.  Python [str] values are Rocq strings over the 8-bit [ascii]
    alphabet; [str.lower] acts on the letters [A]..[Z] and leaves every other
    character alone (the text handled by the pipeline is taken to be ASCII).
    Dictionaries keyed by strings are [gmap string _]; a JSON [null] / Python
    [None] marker is [None]. *)

From Stdlib Require Import Ascii String NArith.
From stdpp Require Import base option list gmap strings.

Local Open Scope nat_scope.

(** ** Python string primitives *)

Module PyStr.

Definition is_upper (c : ascii) : bool :=
  let n := nat_of_ascii c in (65 <=? n) && (n <=? 90).

Definition lower_char (c : ascii) : ascii :=
  if is_upper c then ascii_of_nat (nat_of_ascii c + 32) else c.

(** [s.lower()] *)
Fixpoint lower (s : string) : string :=
  match s with
  | EmptyString => EmptyString
  | String c t => String (lower_char c) (lower t)
  end.

(** [s.startswith(p)] *)
Definition startswith (s p : string) : bool := String.prefix p s.

(** [sub in s]: substring containment; the empty string is in every
    string. *)
Fixpoint contains (sub s : string) : bool :=
  match s with
  | EmptyString => startswith s sub
  | String _ t => startswith s sub || contains sub t
  end.

(** [s[1:]] and [s[:-1]] *)
Definition drop_first (s : string) : string :=
  match s with
  | EmptyString => EmptyString
  | String _ t => t
  end.

Fixpoint drop_last (s : string) : string :=
  match s with
  | EmptyString => EmptyString
  | String _ EmptyString => EmptyString
  | String c t => String c (drop_last t)
  end.

Fixpoint last_char (s : string) : option ascii :=
  match s with
  | EmptyString => None
  | String c EmptyString => Some c
  | String _ t => last_char t
  end.

(** [s.endswith(p)]: the last [len(p)] characters of [s] are [p]. *)
Definition endswith (s p : string) : bool :=
  (String.length p <=? String.length s) &&
  String.eqb (String.substring (String.length s - String.length p)
                               (String.length p) s) p.

(** [s.replace(old, new)] scans [s] from the left and replaces every
    non-overlapping occurrence of [old].  [skip] counts the characters of an
    occurrence that was just replaced and that are still to be passed
    over. *)
Fixpoint replace_from (old new : string) (skip : nat) (s : string) : string :=
  match s with
  | EmptyString => EmptyString
  | String c t =>
      match skip with
      | S k => replace_from old new k t
      | O =>
          if startswith s old
          then new +:+ replace_from old new (String.length old - 1) t
          else String c (replace_from old new 0 t)
      end
  end.

(** With an empty pattern Python inserts [new] before every character and
    at the end. *)
Fixpoint intersperse (new s : string) : string :=
  match s with
  | EmptyString => new
  | String c t => new +:+ String c (intersperse new t)
  end.

Definition replace (old new s : string) : string :=
  match old with
  | EmptyString => intersperse new s
  | String _ _ => replace_from old new 0 s
  end.

End PyStr.

(** ** Step 10: the column-name cleaner *)

(** The loop [while "__" in clean_name: clean_name = clean_name.replace("__", "_")].
    Every iteration shortens the string, so [fuel] equal to the length of the
    string on entry is never used up (lemma [collapse_loop_exits]). *)
Fixpoint collapse_loop (fuel : nat) (clean_name : string) : string :=
  match fuel with
  | O => clean_name
  | S fuel' =>
      if PyStr.contains "__" clean_name
      then collapse_loop fuel' (PyStr.replace "__" "_" clean_name)
      else clean_name
  end.

(** The one-character string holding the double quote (code 34). *)
Definition dquote : string := String (ascii_of_nat 34) EmptyString.

Definition step10_clean_column_name (column_name : string) : string :=
  let clean_name := PyStr.lower column_name in
  let clean_name := PyStr.replace "'" "" clean_name in
  let clean_name := PyStr.replace dquote "" clean_name in
  let clean_name := PyStr.replace "`" "" clean_name in
  let clean_name := PyStr.replace "(" "_" clean_name in
  let clean_name := PyStr.replace ")" "_" clean_name in
  let clean_name := PyStr.replace "%" "_" clean_name in
  let clean_name := PyStr.replace "&" "_" clean_name in
  let clean_name := PyStr.replace "-" "_" clean_name in
  let clean_name := PyStr.replace " " "_" clean_name in
  let clean_name := collapse_loop (String.length clean_name) clean_name in
  let clean_name :=
    if PyStr.startswith clean_name "_" then PyStr.drop_first clean_name
    else clean_name in
  let clean_name :=
    if PyStr.endswith clean_name "_" then PyStr.drop_last clean_name
    else clean_name in
  clean_name.

(** *** The normalizer as the specification words it

    Lowercase; delete the three quote characters; turn each of the six
    separator characters into an underscore; collapse every run of underscores
    to one underscore; strip one leading and one trailing underscore. *)

Module NormalizeSpec.

Definition is_quote (c : ascii) : bool :=
  Ascii.eqb c "'" || Ascii.eqb c (ascii_of_nat 34) || Ascii.eqb c "`".

Definition is_separator (c : ascii) : bool :=
  Ascii.eqb c "(" || Ascii.eqb c ")" || Ascii.eqb c "%" ||
  Ascii.eqb c "&" || Ascii.eqb c "-" || Ascii.eqb c " ".

Fixpoint delete_chars (p : ascii -> bool) (s : string) : string :=
  match s with
  | EmptyString => EmptyString
  | String c t => if p c then delete_chars p t else String c (delete_chars p t)
  end.

Fixpoint map_chars (f : ascii -> ascii) (s : string) : string :=
  match s with
  | EmptyString => EmptyString
  | String c t => String (f c) (map_chars f t)
  end.

Definition to_underscore (c : ascii) : ascii :=
  if is_separator c then "_"%char else c.

(** An underscore that is followed by another underscore is dropped, so a
    run of any length leaves exactly one. *)
Fixpoint collapse_runs (s : string) : string :=
  match s with
  | EmptyString => EmptyString
  | String c t =>
      match t with
      | String d _ =>
          if Ascii.eqb c "_" && Ascii.eqb d "_" then collapse_runs t
          else String c (collapse_runs t)
      | EmptyString => String c EmptyString
      end
  end.

Definition strip_leading (s : string) : string :=
  match s with
  | String c t => if Ascii.eqb c "_" then t else s
  | EmptyString => s
  end.

Definition strip_trailing (s : string) : string :=
  match PyStr.last_char s with
  | Some c => if Ascii.eqb c "_" then PyStr.drop_last s else s
  | None => s
  end.

(** Characters that the first three steps leave alone. *)
Definition is_clean_char (c : ascii) : bool :=
  negb (PyStr.is_upper c) && negb (is_quote c) && negb (is_separator c).

Fixpoint all_chars (p : ascii -> bool) (s : string) : bool :=
  match s with
  | EmptyString => true
  | String c t => p c && all_chars p t
  end.

Definition normalize (name : string) : string :=
  strip_trailing
    (strip_leading
       (collapse_runs
          (map_chars to_underscore
             (delete_chars is_quote (PyStr.lower name))))).

(** A name on which no step of the normalizer has anything left to do. *)
Definition is_normal_form (s : string) : bool :=
  all_chars is_clean_char s &&
  negb (PyStr.contains "__" s) &&
  negb (PyStr.startswith s "_") &&
  negb (PyStr.endswith s "_").

End NormalizeSpec.

(** ** Data model *)

(** One entry of a dataset's [distribution] array. *)
Record Distribution := { downloadURL : option string }.

(** A catalog entry as decoded from the API's JSON.  A field that the object
    may lack is an [option]; [identifier] is read with [dataset['identifier']]
    everywhere and is required. *)
Record Dataset := {
  identifier : string;
  title : option string;
  description : option string;
  theme : option (list string);
  keyword : option (list string);
  modified : option string;
  distribution : option (list Distribution)
}.

(** The object stored in [metadata.json]: identifier to last-seen marker
    (a marker is what [dataset.get('modified')] returned: a string or
    [None]), and the time of the last save. *)
Record Metadata := {
  files : gmap string (option string);
  last_run : option string
}.

Record Config := {
  API_URL : string;
  METADATA_FILE : string;
  DOWNLOAD_DIR : string;
  CLEANED_DIR : string;
  MAX_WORKERS : nat;
  THEME_FILTER : string;
  CSV_EXTENSION : string;
  CLEANED_SUFFIX : string;
  DEFAULT_ENCODING : string
}.

Definition step1_load_constants : Config := {|
  API_URL := "https://data.cms.gov/provider-data/api/1/metastore/schemas/dataset/items";
  METADATA_FILE := "metadata.json";
  DOWNLOAD_DIR := "downloads";
  CLEANED_DIR := "cleaned";
  MAX_WORKERS := 5;
  THEME_FILTER := "hospitals";
  CSV_EXTENSION := ".csv";
  CLEANED_SUFFIX := "_cleaned";
  DEFAULT_ENCODING := "utf-8"
|}.

(** ** Steps 6 and 7: the pure list passes *)

Definition is_hospital_related (theme_filter : string) (dataset : Dataset) : bool :=
  let title := PyStr.lower (default "" (title dataset)) in
  let description := PyStr.lower (default "" (description dataset)) in
  let theme := default [] (theme dataset) in
  let keywords := default [] (keyword dataset) in
  PyStr.contains theme_filter title ||
  PyStr.contains theme_filter description ||
  existsb (fun t => PyStr.contains theme_filter (PyStr.lower t)) theme ||
  existsb (fun k => PyStr.contains theme_filter (PyStr.lower k)) keywords ||
  PyStr.contains "hospital" title ||
  PyStr.contains "hospital" description.

(** [for x in xs: if keep(x): out.append(x)] *)
Definition append_if {A} (keep : A -> bool) (out : list A) (x : A) : list A :=
  if keep x then out ++ [x] else out.

Definition step6_filter_hospital_datasets
    (config : Config) (all_datasets : list Dataset) : list Dataset :=
  let theme_filter := PyStr.lower (THEME_FILTER config) in
  fold_left (append_if (is_hospital_related theme_filter)) all_datasets [].

(** [file_id not in metadata["files"] or metadata["files"][file_id] != last_modified] *)
Definition is_new_or_updated (metadata : Metadata) (dataset : Dataset) : bool :=
  let file_id := identifier dataset in
  let last_modified := modified dataset in
  match files metadata !! file_id with
  | None => true
  | Some stored => negb (bool_decide (stored = last_modified))
  end.

Definition step7_find_new_or_updated_files
    (datasets : list Dataset) (metadata : Metadata) : list Dataset :=
  fold_left (append_if (is_new_or_updated metadata)) datasets [].

(** [metadata["files"][file_id] = last_modified] for every processed
    dataset, in order; the dictionary is updated in place and returned. *)
Definition record_marker (metadata : Metadata) (dataset : Dataset) : Metadata :=
  {| files := <[identifier dataset := modified dataset]> (files metadata);
     last_run := last_run metadata |}.

Definition step12_update_metadata
    (metadata : Metadata) (processed_datasets : list Dataset) : Metadata :=
  fold_left record_marker processed_datasets metadata.

(** ** The world the effectful steps act on *)

(** A tabular file as [csv.reader] yields it and [csv.writer] takes it: rows
    of cells. *)
Definition Table : Type := list (list string).

Inductive Error :=
| ValueError (msg : string)
| KeyError (key : string)
| URLError (url : string)
| JSONDecodeError
| FileNotFoundError (path : string)
| StopIteration
| RuntimeError (msg : string)
| CsvError (msg : string).

(** The state file: absent, present but not decodable, or holding a state. *)
Inductive StateFile :=
| NoFile
| Malformed
| Stored (metadata : Metadata).

(** [metadata_file] is the file named by [METADATA_FILE]; [csv_files] are the
    tabular files on disk by path; [api_response] is what fetching and
    decoding [API_URL] gives; [remote_files] is the content behind each
    download URL (a URL with no entry cannot be fetched); [clock] is
    [datetime.now().isoformat()].

    The world is kept small.  A path is the string the code builds (two
    spellings of one file are two entries), a write always goes through, and
    a file is the table that decoding and parsing it gives: files that do not
    decode or parse, directories and permissions are not part of it.  The
    statements below are about what the pipeline does with the state file,
    the order of its steps and the tables it handles. *)
Record World := {
  metadata_file : StateFile;
  csv_files : gmap string Table;
  api_response : Error + list Dataset;
  remote_files : gmap string Table;
  clock : string
}.

Definition set_metadata_file (f : StateFile) (w : World) : World :=
  {| metadata_file := f; csv_files := csv_files w;
     api_response := api_response w; remote_files := remote_files w;
     clock := clock w |}.

Definition write_csv (path : string) (t : Table) (w : World) : World :=
  {| metadata_file := metadata_file w;
     csv_files := <[path := t]> (csv_files w);
     api_response := api_response w; remote_files := remote_files w;
     clock := clock w |}.

(** Effectful steps: the world is threaded through and survives a raised
    error (files written before the error stay written). *)
Definition M (A : Type) : Type := World -> (Error + A) * World.

Definition ret {A} (a : A) : M A := fun w => (inr a, w).

Definition raise {A} (e : Error) : M A := fun w => (inl e, w).

Definition bind {A B} (c : M A) (k : A -> M B) : M B :=
  fun w =>
    match c w with
    | (inr a, w') => k a w'
    | (inl e, w') => (inl e, w')
    end.

Notation "'let*' x ':=' c 'in' k" := (bind c (fun x => k))
  (at level 10, x name, c at level 100, k at level 200).

(** [os.path.join(a, b)] on POSIX paths. *)
Definition os_path_join (a b : string) : string :=
  if PyStr.startswith b "/" then b
  else if String.eqb a "" || PyStr.endswith a "/" then a +:+ b
  else a +:+ "/" +:+ b.

(** ** Steps 3, 4, 5: state file and catalog *)

Definition step3_load_previous_metadata : M Metadata :=
  fun w =>
    match metadata_file w with
    | Stored metadata => (inr metadata, w)
    | Malformed => (inl JSONDecodeError, w)
    | NoFile => (inr {| files := ∅; last_run := None |}, w)
    end.

Definition step4_save_metadata (metadata : Metadata) : M unit :=
  fun w =>
    let metadata := {| files := files metadata; last_run := Some (clock w) |} in
    (inr tt, set_metadata_file (Stored metadata) w).

Definition step5_fetch_all_datasets : M (list Dataset) :=
  fun w => (api_response w, w).

(** ** Steps 8 and 9: download *)

Definition urlretrieve (url filename : string) : M unit :=
  fun w =>
    match remote_files w !! url with
    | Some content => (inr tt, write_csv filename content w)
    | None => (inl (URLError url), w)
    end.

Definition step8_download_single_file
    (config : Config) (dataset : Dataset) : M (string * string) :=
  match distribution dataset with
  | None | Some [] =>
      raise (ValueError ("No distribution found for " +:+ identifier dataset))
  | Some (first :: _) =>
      match downloadURL first with
      | None => raise (KeyError "downloadURL")
      | Some download_url =>
          let file_id := identifier dataset in
          let local_filename :=
            os_path_join (DOWNLOAD_DIR config) (file_id +:+ ".csv") in
          let* _ := urlretrieve download_url local_filename in
          ret (local_filename, file_id)
      end
  end.

(** *** The worker pool

    [list(executor.map(worker, items))] inside [with ThreadPoolExecutor(...)].
    All items are submitted at once and the results are collected in input
    order.  The first failing item, in input order, makes the result iterator
    raise: items that had not started by then are cancelled, items already
    started run to completion with their outcome dropped, and the error
    leaves the [with] block.  How many items had started is up to the thread
    scheduler: [started] counts them from the head of [items].  Workers act on
    the files one after the other in submission order, which is one of the
    pool's interleavings. *)

(** A [StopIteration] that reaches the result generator leaves it as a
    [RuntimeError]. *)
Definition reraise (e : Error) : Error :=
  match e with
  | StopIteration => RuntimeError "generator raised StopIteration"
  | _ => e
  end.

Fixpoint run_to_completion {T R} (worker : T -> M R) (items : list T)
    (w : World) : World :=
  match items with
  | [] => w
  | x :: rest => run_to_completion worker rest (snd (worker x w))
  end.

Fixpoint executor_map {T R} (started : nat) (worker : T -> M R)
    (items : list T) : M (list R) :=
  fun w =>
    match items with
    | [] => (inr [], w)
    | x :: rest =>
        match worker x w with
        | (inr r, w1) =>
            match executor_map (pred started) worker rest w1 with
            | (inr rs, w2) => (inr (r :: rs), w2)
            | (inl e, w2) => (inl e, w2)
            end
        | (inl e, w1) =>
            (inl (reraise e),
             run_to_completion worker (take (pred started) rest) w1)
        end
    end.

Definition step9_download_files_parallel (config : Config) (started : nat)
    (datasets_to_download : list Dataset) : M (list (string * string)) :=
  executor_map started (step8_download_single_file config) datasets_to_download.

(** ** Step 11: the table transform *)

Definition step11_process_single_file
    (config : Config) (file_path file_id : string) : M string :=
  fun w =>
    match csv_files w !! file_path with
    | None => (inl (FileNotFoundError file_path), w)
    | Some [] => (inl StopIteration, w)
    | Some (original_headers :: rows) =>
        let cleaned_headers :=
          fold_left (fun acc header => acc ++ [step10_clean_column_name header])
                    original_headers [] in
        let cleaned_filename := file_id +:+ "_cleaned.csv" in
        let cleaned_path := os_path_join (CLEANED_DIR config) cleaned_filename in
        (inr cleaned_path, write_csv cleaned_path (cleaned_headers :: rows) w)
    end.

Definition process_single (config : Config) (file_info : string * string) : M string :=
  let '(file_path, file_id) := file_info in
  step11_process_single_file config file_path file_id.

Definition step11_process_files_parallel (config : Config) (started : nat)
    (download_results : list (string * string)) : M (list string) :=
  executor_map started (process_single config) download_results.

(** *** The transform at the level of text

    [csv_files] holds each file as the rows [csv.reader] makes of it.  To
    speak of the characters of a file, here are [csv.reader] and [csv.writer]
    for the default dialect (comma, double quote, doubled quotes inside a
    quoted field, minimal quoting, lines ended by CR LF, not strict), over
    the decoded text of a file opened with [newline=''], as CPython 3.11 and
    later read and write it. *)

Module Csv.

Definition LF : ascii := ascii_of_nat 10.

Definition CR : ascii := ascii_of_nat 13.

Definition delimiter : ascii := ","%char.

Definition quotechar : ascii := ascii_of_nat 34.

Definition lineterminator : string := String CR (String LF EmptyString).

Definition field_limit : N := 131072%N.

Definition is_newline (c : ascii) : bool := Ascii.eqb c LF || Ascii.eqb c CR.

(** The lines the file object hands to the reader: the text is cut after
    every LF, CR LF or lone CR, and the line ends are kept. *)
Fixpoint split_lines (line text : string) : list string :=
  match text with
  | EmptyString =>
      match line with
      | EmptyString => []
      | String _ _ => [line]
      end
  | String c rest =>
      if Ascii.eqb c LF then (line +:+ String LF "") :: split_lines "" rest
      else if Ascii.eqb c CR then
        match rest with
        | String d rest' =>
            if Ascii.eqb d LF
            then (line +:+ String CR (String LF "")) :: split_lines "" rest'
            else (line +:+ String CR "") :: split_lines "" rest
        | EmptyString => [line +:+ String CR ""]
        end
      else split_lines (line +:+ String c "") rest
  end.

(** The states of the reader that the default dialect can reach (it has no
    escape character). *)
Inductive ParserState :=
| START_RECORD
| START_FIELD
| IN_FIELD
| IN_QUOTED_FIELD
| QUOTE_IN_QUOTED_FIELD
| EAT_CRNL.

(** A character of the line, or the end of the line. *)
Inductive Input :=
| Char (c : ascii)
| EOL.

Record Parser := {
  state : ParserState;
  fields : list string;
  field : string
}.

Definition parse_reset : Parser :=
  {| state := START_RECORD; fields := []; field := "" |}.

Definition set_state (s : ParserState) (p : Parser) : Parser :=
  {| state := s; fields := fields p; field := field p |}.

Definition parse_save_field (s : ParserState) (p : Parser) : Parser :=
  {| state := s; fields := fields p ++ [field p]; field := "" |}.

Definition parse_add_char (s : ParserState) (c : ascii) (p : Parser)
    : Error + Parser :=
  if (field_limit <=? N.of_nat (String.length (field p)))%N
  then inl (CsvError "field larger than field limit (131072)")
  else inr {| state := s; fields := fields p;
              field := field p +:+ String c "" |}.

Definition start_field (i : Input) (p : Parser) : Error + Parser :=
  match i with
  | EOL => inr (parse_save_field START_RECORD p)
  | Char c =>
      if is_newline c then inr (parse_save_field EAT_CRNL p)
      else if Ascii.eqb c quotechar then inr (set_state IN_QUOTED_FIELD p)
      else if Ascii.eqb c delimiter then inr (parse_save_field START_FIELD p)
      else parse_add_char IN_FIELD c p
  end.

Definition parse_process_char (p : Parser) (i : Input) : Error + Parser :=
  match state p with
  | START_RECORD =>
      match i with
      | EOL => inr p
      | Char c =>
          if is_newline c then inr (set_state EAT_CRNL p) else start_field i p
      end
  | START_FIELD => start_field i p
  | IN_FIELD =>
      match i with
      | EOL => inr (parse_save_field START_RECORD p)
      | Char c =>
          if is_newline c then inr (parse_save_field EAT_CRNL p)
          else if Ascii.eqb c delimiter then inr (parse_save_field START_FIELD p)
          else parse_add_char IN_FIELD c p
      end
  | IN_QUOTED_FIELD =>
      match i with
      | EOL => inr p
      | Char c =>
          if Ascii.eqb c quotechar then inr (set_state QUOTE_IN_QUOTED_FIELD p)
          else parse_add_char IN_QUOTED_FIELD c p
      end
  | QUOTE_IN_QUOTED_FIELD =>
      match i with
      | EOL => inr (parse_save_field START_RECORD p)
      | Char c =>
          if Ascii.eqb c quotechar then parse_add_char IN_QUOTED_FIELD c p
          else if Ascii.eqb c delimiter then inr (parse_save_field START_FIELD p)
          else if is_newline c then inr (parse_save_field EAT_CRNL p)
          else parse_add_char IN_FIELD c p
      end
  | EAT_CRNL =>
      match i with
      | EOL => inr (set_state START_RECORD p)
      | Char c =>
          if is_newline c then inr p
          else inl (CsvError "new-line character seen in unquoted field")
      end
  end.

Fixpoint feed (p : Parser) (line : string) : Error + Parser :=
  match line with
  | EmptyString => inr p
  | String c rest =>
      match parse_process_char p (Char c) with
      | inr p' => feed p' rest
      | inl e => inl e
      end
  end.

Definition in_quoted_field (p : Parser) : bool :=
  match state p with
  | IN_QUOTED_FIELD => true
  | _ => false
  end.

(** A record ends with the line on which the reader is back in
    [START_RECORD]; a quoted field may run over several lines, and one left
    open at the end of the text is closed there. *)
Fixpoint read_records (p : Parser) (lines : list string) : Error + Table :=
  match lines with
  | [] =>
      if negb (String.eqb (field p) "") || in_quoted_field p
      then inr [fields (parse_save_field START_RECORD p)]
      else inr []
  | line :: rest =>
      match feed p line with
      | inl e => inl e
      | inr p1 =>
          match parse_process_char p1 EOL with
          | inl e => inl e
          | inr p2 =>
              match state p2 with
              | START_RECORD =>
                  match read_records parse_reset rest with
                  | inr rows => inr (fields p2 :: rows)
                  | inl e => inl e
                  end
              | _ => read_records p2 rest
              end
          end
      end
  end.

(** All the rows of [csv.reader(file)], or the error met on the way. *)
Definition reader (text : string) : Error + Table :=
  read_records parse_reset (split_lines "" text).

Fixpoint needs_quotes (s : string) : bool :=
  match s with
  | EmptyString => false
  | String c t =>
      Ascii.eqb c delimiter || Ascii.eqb c quotechar || is_newline c ||
      needs_quotes t
  end.

Fixpoint double_quotes (s : string) : string :=
  match s with
  | EmptyString => EmptyString
  | String c t =>
      if Ascii.eqb c quotechar
      then String quotechar (String quotechar (double_quotes t))
      else String c (double_quotes t)
  end.

Definition quoted (s : string) : string :=
  String quotechar (double_quotes s +:+ String quotechar "").

Definition write_field (s : string) : string :=
  if needs_quotes s then quoted s else s.

Fixpoint join_fields (row : list string) : string :=
  match row with
  | [] => ""
  | [s] => write_field s
  | s :: rest => write_field s +:+ String delimiter (join_fields rest)
  end.

(** [writer.writerow(row)]; a row made of one empty cell is written as an
    empty quoted field. *)
Definition writerow (row : list string) : string :=
  match row with
  | [EmptyString] => quoted "" +:+ lineterminator
  | _ => join_fields row +:+ lineterminator
  end.

(** [writer.writerows(rows)] *)
Fixpoint writerows (rows : Table) : string :=
  match rows with
  | [] => ""
  | row :: rest => writerow row +:+ writerows rest
  end.

End Csv.

(** Lines 130 to 147 of [step11_process_single_file] on the text of the
    source file: what is written to the cleaned file, or the error raised. *)
Definition step11_transform_text (source : string) : Error + string :=
  match Csv.reader source with
  | inl e => inl e
  | inr [] => inl StopIteration
  | inr (original_headers :: rows) =>
      let cleaned_headers :=
        fold_left (fun acc header => acc ++ [step10_clean_column_name header])
                  original_headers [] in
      inr (Csv.writerow cleaned_headers +:+ Csv.writerows rows)
  end.

(** ** The orchestrator *)

(** What the thread scheduler decides in the two pooled phases. *)
Record Schedule := {
  started_downloads : nat;
  started_transforms : nat
}.

(** [run_complete_pipeline].  The [print] calls and [show_sample_output]
    (which only reads and prints, inside a [try]) leave the world as it is and
    are left out. *)
Definition run_complete_pipeline (config : Config) (sched : Schedule) : M unit :=
  let* metadata := step3_load_previous_metadata in
  let* all_datasets := step5_fetch_all_datasets in
  let hospital_datasets := step6_filter_hospital_datasets config all_datasets in
  let new_files := step7_find_new_or_updated_files hospital_datasets metadata in
  match new_files with
  | [] => ret tt
  | _ :: _ =>
      let* download_results :=
        step9_download_files_parallel config (started_downloads sched) new_files in
      let* processed_results :=
        step11_process_files_parallel config (started_transforms sched)
                                      download_results in
      let updated_metadata := step12_update_metadata metadata new_files in
      step4_save_metadata updated_metadata
  end.

(** ** Vocabulary of the statements *)

(** [sub] occurs in [s]. *)
Definition is_substring (sub s : string) : Prop :=
  exists pre post, s = pre +:+ sub +:+ post.

(** Relevance as the specification words it: the lowercased topic occurs in
    the lowercased title, description, a theme or a keyword, or the literal
    [hospital] occurs in the lowercased title or description.  An absent
    field counts as empty. *)
Definition relevant (topic : string) (dataset : Dataset) : Prop :=
  let topic := PyStr.lower topic in
  let title := PyStr.lower (default "" (title dataset)) in
  let description := PyStr.lower (default "" (description dataset)) in
  is_substring topic title \/
  is_substring topic description \/
  (exists t, In t (default [] (theme dataset)) /\
             is_substring topic (PyStr.lower t)) \/
  (exists k, In k (default [] (keyword dataset)) /\
             is_substring topic (PyStr.lower k)) \/
  is_substring "hospital" title \/
  is_substring "hospital" description.

(** Change as the specification words it: the identifier is absent from the
    state, or present with a marker that differs. *)
Definition changed (metadata : Metadata) (dataset : Dataset) : Prop :=
  files metadata !! identifier dataset = None \/
  exists stored,
    files metadata !! identifier dataset = Some stored /\
    stored <> modified dataset.

(** Descriptors that share an identifier carry the same marker (as they do
    when identifiers are unique). *)
Definition consistent_markers (datasets : list Dataset) : Prop :=
  forall d1 d2,
    In d1 datasets -> In d2 datasets ->
    identifier d1 = identifier d2 -> modified d1 = modified d2.

Definition agree (d1 d2 : Dataset) : bool :=
  implb (String.eqb (identifier d1) (identifier d2))
        (bool_decide (modified d1 = modified d2)).

Definition check_consistent_markers (datasets : list Dataset) : bool :=
  forallb (fun d1 => forallb (agree d1) datasets) datasets.

(** The marker of the last descriptor of [datasets] that carries identifier
    [file_id], if there is one. *)
Fixpoint last_marker (file_id : string) (datasets : list Dataset)
    : option (option string) :=
  match datasets with
  | [] => None
  | d :: rest =>
      match last_marker file_id rest with
      | Some m => Some m
      | None => if String.eqb (identifier d) file_id then Some (modified d) else None
      end
  end.

(** [w'] differs from [w] at most in the tabular files on disk. *)
Definition only_csv_changed (w w' : World) : Prop :=
  metadata_file w' = metadata_file w /\
  api_response w' = api_response w /\
  remote_files w' = remote_files w /\
  clock w' = clock w.

(** ** Sample catalogs and worlds *)

Module Examples.

Definition descriptor (file_id marker : string) : Dataset :=
  {| identifier := file_id; title := Some "Hospital General Information";
     description := None; theme := Some ["Hospitals"]; keyword := None;
     modified := Some marker;
     distribution := Some [ {| downloadURL := Some ("http://cms/" +:+ file_id) |} ] |}.

Definition empty_state : Metadata := {| files := ∅; last_run := None |}.

(** A catalog that lists one identifier twice, with two markers. *)
Definition twice : list Dataset :=
  [descriptor "xubh-q36u" "2024-01-01"; descriptor "xubh-q36u" "2024-02-01"].

Definition distinct : list Dataset :=
  [descriptor "xubh-q36u" "2024-01-01"; descriptor "yv7e-xc69" "2024-02-01"].

End Examples.

Module TransformExample.

Definition raw : Table :=
  [["Facility ID"; "Patient's Name (%)"; "A   B"];
   ["010001"; "O'Neil (Jr.)"; "x - y"];
   ["010005"; ""; "100%"]].

Definition world : World :=
  {| metadata_file := NoFile;
     csv_files := {[ "downloads/xubh-q36u.csv" := raw ]};
     api_response := inr [];
     remote_files := ∅;
     clock := "2024-03-01T06:00:00" |}.

End TransformExample.

Module RunExample.

Definition raw : Table := [["Facility ID"; "Hospital Name"]; ["010001"; "Southeast Health"]].

Definition good : Dataset := Examples.descriptor "xubh-q36u" "2024-01-01".

Definition good_later : Dataset := Examples.descriptor "xubh-q36u" "2024-02-01".

(** A relevant descriptor with an empty [distribution] array. *)
Definition no_distribution : Dataset :=
  {| identifier := "yv7e-xc69"; title := Some "Hospital Readmissions";
     description := None; theme := None; keyword := None;
     modified := Some "2024-01-15"; distribution := Some [] |}.

Definition world (state : StateFile) (catalog : list Dataset) : World :=
  {| metadata_file := state;
     csv_files := ∅;
     api_response := inr catalog;
     remote_files := {[ "http://cms/xubh-q36u" := raw ]};
     clock := "2024-03-01T06:00:00" |}.

Definition synced : Metadata :=
  {| files := {[ "xubh-q36u" := Some "2024-01-01" ]};
     last_run := Some "2024-02-01T06:00:00" |}.

(** Every submitted item has started before a failure is seen. *)
Definition all_started : Schedule :=
  {| started_downloads := 5; started_transforms := 5 |}.

End RunExample.

(** ** Vocabulary of the further properties *)

(** The error that stops a run before any dataset is looked at: an
    undecodable state file, else a failed catalog fetch. *)
Definition fatal_error (w : World) : option Error :=
  match metadata_file w with
  | Malformed => Some JSONDecodeError
  | _ =>
      match api_response w with
      | inl e => Some e
      | inr _ => None
      end
  end.

(** Where [step8_download_single_file] stores a dataset. *)
Definition download_path (config : Config) (dataset : Dataset) : string :=
  os_path_join (DOWNLOAD_DIR config) (identifier dataset +:+ ".csv").

(** The table behind the URL of the first distribution entry, when the
    dataset has one and it can be fetched. *)
Definition fetched (w : World) (dataset : Dataset) : option Table :=
  match distribution dataset with
  | Some (first :: _) =>
      match downloadURL first with
      | Some url => remote_files w !! url
      | None => None
      end
  | _ => None
  end.

(** Every character is in the ASCII range; on such text [str.lower] is
    [PyStr.lower]. *)
Definition is_ascii (s : string) : bool :=
  NormalizeSpec.all_chars (fun c => nat_of_ascii c <? 128) s.

(** The same world at a later reading of the clock. *)
Definition set_clock (now : string) (w : World) : World :=
  {| metadata_file := metadata_file w; csv_files := csv_files w;
     api_response := api_response w; remote_files := remote_files w;
     clock := now |}.

Module MoreExamples.

Definition any_topic : Config :=
  {| API_URL := API_URL step1_load_constants;
     METADATA_FILE := "metadata.json";
     DOWNLOAD_DIR := "downloads";
     CLEANED_DIR := "cleaned";
     MAX_WORKERS := 5;
     THEME_FILTER := "";
     CSV_EXTENSION := ".csv";
     CLEANED_SUFFIX := "_cleaned";
     DEFAULT_ENCODING := "utf-8" |}.

Definition dialysis : Dataset :=
  {| identifier := "23ew-n7w9"; title := Some "Dialysis Facilities";
     description := None; theme := Some ["Dialysis"]; keyword := None;
     modified := Some "2024-01-20"; distribution := None |}.

(** A descriptor whose identifier is an absolute path. *)
Definition absolute : Dataset :=
  {| identifier := "/tmp/hospital"; title := Some "Hospital";
     description := None; theme := None; keyword := None;
     modified := None;
     distribution := Some [ {| downloadURL := Some "http://cms/xubh-q36u" |} ] |}.

Definition broken_catalog : World :=
  {| metadata_file := NoFile; csv_files := ∅;
     api_response := inl (URLError "catalog");
     remote_files := ∅; clock := "2024-03-01T06:00:00" |}.

End MoreExamples.

(** * Properties *)

(** ** Facts about the string primitives *)

Section StringFacts.

Local Abbreviation R := (PyStr.replace "__" "_").

Lemma string_length_ind (P : string -> Prop) :
  (forall s, (forall t, String.length t < String.length s -> P t) -> P s) ->
  forall s, P s.
Proof.
  intros step s.
  remember (String.length s) as n eqn:Hn.
  revert s Hn.
  induction (lt_wf n) as [n _ IH].
  intros s ->. apply step. intros t Ht. by apply (IH _ Ht).
Qed.

Lemma startswith_empty s : PyStr.startswith s "" = true.
Proof. by destruct s. Qed.

Lemma startswith_cons a t c p :
  PyStr.startswith (String a t) (String c p) = Ascii.eqb c a && PyStr.startswith t p.
Proof.
  unfold PyStr.startswith. simpl.
  destruct (ascii_dec c a) as [->|Hne].
  - by rewrite Ascii.eqb_refl.
  - apply Ascii.eqb_neq in Hne. by rewrite Hne.
Qed.

Lemma startswith_nil_cons c p : PyStr.startswith "" (String c p) = false.
Proof. reflexivity. Qed.

Lemma replace_from_cons old new c t :
  PyStr.replace_from old new 0 (String c t) =
  if PyStr.startswith (String c t) old
  then new +:+ PyStr.replace_from old new (String.length old - 1) t
  else String c (PyStr.replace_from old new 0 t).
Proof. reflexivity. Qed.

Lemma contains_cons sub c t :
  PyStr.contains sub (String c t) =
  PyStr.startswith (String c t) sub || PyStr.contains sub t.
Proof. reflexivity. Qed.

(** Replacing a one-character pattern by nothing deletes that character. *)
Lemma replace_char_empty c s :
  PyStr.replace (String c "") "" s = NormalizeSpec.delete_chars (Ascii.eqb c) s.
Proof.
  unfold PyStr.replace.
  induction s as [|a t IH]; [done|].
  rewrite replace_from_cons, startswith_cons, startswith_empty, andb_true_r.
  cbn [NormalizeSpec.delete_chars String.length Nat.sub].
  destruct (Ascii.eqb c a); cbn [String.append]; by rewrite IH.
Qed.

(** Replacing a one-character pattern by one character maps over the
    string. *)
Lemma replace_char_char c d s :
  PyStr.replace (String c "") (String d "") s =
  NormalizeSpec.map_chars (fun x => if Ascii.eqb c x then d else x) s.
Proof.
  unfold PyStr.replace.
  induction s as [|a t IH]; [done|].
  rewrite replace_from_cons, startswith_cons, startswith_empty, andb_true_r.
  cbn [NormalizeSpec.map_chars String.length Nat.sub].
  destruct (Ascii.eqb c a); cbn [String.append]; by rewrite IH.
Qed.

Lemma delete_chars_twice p q s :
  NormalizeSpec.delete_chars q (NormalizeSpec.delete_chars p s) =
  NormalizeSpec.delete_chars (fun c => p c || q c) s.
Proof.
  induction s as [|a t IH]; [done|]. simpl.
  destruct (p a); simpl; [done|]. destruct (q a); by rewrite IH.
Qed.

Lemma delete_chars_ext p q s :
  (forall c, p c = q c) ->
  NormalizeSpec.delete_chars p s = NormalizeSpec.delete_chars q s.
Proof. intros E. induction s as [|a t IH]; [done|]. simpl. by rewrite E, IH. Qed.

Lemma map_chars_twice f g s :
  NormalizeSpec.map_chars g (NormalizeSpec.map_chars f s) =
  NormalizeSpec.map_chars (fun c => g (f c)) s.
Proof. induction s as [|a t IH]; [done|]. simpl. by rewrite IH. Qed.

Lemma map_chars_ext f g s :
  (forall c, f c = g c) ->
  NormalizeSpec.map_chars f s = NormalizeSpec.map_chars g s.
Proof. intros E. induction s as [|a t IH]; [done|]. simpl. by rewrite E, IH. Qed.

(** One pass of [replace("__", "_")], read off two characters at a time. *)
Lemma replace_uu_cons c t :
  R (String c t) =
  match t with
  | String d u =>
      if Ascii.eqb c "_" && Ascii.eqb d "_" then String "_" (R u)
      else String c (R t)
  | EmptyString => String c ""
  end.
Proof.
  unfold PyStr.replace. rewrite replace_from_cons.
  destruct t as [|d u].
  - rewrite startswith_cons, startswith_nil_cons, andb_false_r. done.
  - rewrite !startswith_cons, startswith_empty, andb_true_r.
    rewrite (Ascii.eqb_sym "_" c), (Ascii.eqb_sym "_" d).
    by destruct (Ascii.eqb c "_" && Ascii.eqb d "_").
Qed.

Lemma replace_uu_startswith s :
  PyStr.startswith (R s) "_" = PyStr.startswith s "_".
Proof.
  destruct s as [|c t]; [done|].
  rewrite replace_uu_cons. destruct t as [|d u]; [done|].
  destruct (Ascii.eqb c "_") eqn:Ec; simpl andb.
  - apply Ascii.eqb_eq in Ec as ->.
    destruct (Ascii.eqb d "_"); by rewrite !startswith_cons, !startswith_empty.
  - by rewrite !startswith_cons, !startswith_empty.
Qed.

Lemma replace_uu_length s :
  String.length (R s) <= String.length s /\
  (PyStr.contains "__" s = true -> String.length (R s) < String.length s).
Proof.
  induction s as [s IH] using string_length_ind.
  destruct s as [|c t]; [done|].
  rewrite replace_uu_cons. destruct t as [|d u].
  { split; [done|].
    by rewrite contains_cons, startswith_cons, startswith_nil_cons, andb_false_r. }
  rewrite contains_cons, !startswith_cons, startswith_empty.
  rewrite andb_true_r, (Ascii.eqb_sym "_" c), (Ascii.eqb_sym "_" d).
  destruct (Ascii.eqb c "_" && Ascii.eqb d "_").
  - destruct (IH u) as [Hle _]; [simpl; lia|].
    cbn [String.length]. lia.
  - destruct (IH (String d u)) as [Hle Hlt]; [simpl; lia|].
    simpl orb. cbn [String.length] in *. split; [lia|].
    intros Hc. specialize (Hlt Hc). lia.
Qed.

Lemma collapse_runs_cons c t :
  NormalizeSpec.collapse_runs (String c t) =
  if Ascii.eqb c "_" && PyStr.startswith t "_"
  then NormalizeSpec.collapse_runs t
  else String c (NormalizeSpec.collapse_runs t).
Proof.
  destruct t as [|d u].
  - by rewrite startswith_nil_cons, andb_false_r.
  - rewrite startswith_cons, startswith_empty, andb_true_r.
    by rewrite (Ascii.eqb_sym "_" d).
Qed.

(** A pass of the loop body does not change what the runs collapse to. *)
Lemma collapse_runs_replace s :
  NormalizeSpec.collapse_runs (R s) = NormalizeSpec.collapse_runs s.
Proof.
  induction s as [s IH] using string_length_ind.
  destruct s as [|c t]; [done|].
  rewrite replace_uu_cons. destruct t as [|d u]; [done|].
  destruct (Ascii.eqb c "_" && Ascii.eqb d "_") eqn:E.
  - apply andb_true_iff in E as [Ec Ed].
    apply Ascii.eqb_eq in Ec as ->. apply Ascii.eqb_eq in Ed as ->.
    rewrite (collapse_runs_cons "_" (String "_" u)), startswith_cons.
    rewrite startswith_empty. simpl andb.
    rewrite !collapse_runs_cons, replace_uu_startswith, IH; [done|simpl; lia].
  - rewrite (collapse_runs_cons c (R _)), replace_uu_startswith, IH;
      [|simpl; lia].
    by rewrite <- collapse_runs_cons.
Qed.

Lemma collapse_runs_fixed s :
  PyStr.contains "__" s = false -> NormalizeSpec.collapse_runs s = s.
Proof.
  induction s as [|c t IH]; [done|].
  rewrite contains_cons, startswith_cons. intros H.
  apply orb_false_iff in H as [H1 H2].
  rewrite collapse_runs_cons, (Ascii.eqb_sym c "_"), H1. by rewrite IH.
Qed.

(** The loop leaves by its condition, never by running out of fuel. *)
Lemma collapse_loop_exits fuel s :
  String.length s <= fuel ->
  PyStr.contains "__" (collapse_loop fuel s) = false.
Proof.
  revert s. induction fuel as [|fuel IH]; intros s Hlen.
  - destruct s; [done|simpl in Hlen; lia].
  - cbn [collapse_loop]. destruct (PyStr.contains "__" s) eqn:Hc; [|done].
    apply IH. destruct (replace_uu_length s) as [_ Hlt].
    specialize (Hlt Hc). lia.
Qed.

Lemma collapse_runs_loop fuel s :
  NormalizeSpec.collapse_runs (collapse_loop fuel s) =
  NormalizeSpec.collapse_runs s.
Proof.
  revert s. induction fuel as [|fuel IH]; intros s; [done|].
  cbn [collapse_loop]. destruct (PyStr.contains "__" s); [|done].
  by rewrite IH, collapse_runs_replace.
Qed.

Lemma collapse_loop_runs s :
  collapse_loop (String.length s) s = NormalizeSpec.collapse_runs s.
Proof.
  rewrite <- (collapse_runs_loop (String.length s) s).
  symmetry. apply collapse_runs_fixed. by apply collapse_loop_exits.
Qed.

(** The loop satisfies the equation of the Python [while]. *)
Lemma collapse_loop_unfold s :
  collapse_loop (String.length s) s =
  if PyStr.contains "__" s
  then collapse_loop (String.length (R s)) (R s)
  else s.
Proof.
  destruct (PyStr.contains "__" s) eqn:Hc.
  - by rewrite !collapse_loop_runs, collapse_runs_replace.
  - rewrite collapse_loop_runs. by apply collapse_runs_fixed.
Qed.

End StringFacts.

(** ** The column-name cleaner *)

Section Normalizer.

Import NormalizeSpec.

Lemma collapse_loop_fuel fuel s :
  String.length s <= fuel -> collapse_loop fuel s = collapse_runs s.
Proof.
  intros Hlen. rewrite <- (collapse_runs_loop fuel s).
  symmetry. apply collapse_runs_fixed. by apply collapse_loop_exits.
Qed.

Lemma quotes_deleted s :
  PyStr.replace "`" "" (PyStr.replace dquote "" (PyStr.replace "'" "" s)) =
  delete_chars is_quote s.
Proof.
  unfold dquote. rewrite !replace_char_empty, !delete_chars_twice.
  apply delete_chars_ext. intros c. unfold is_quote.
  by rewrite !(Ascii.eqb_sym c), orb_assoc.
Qed.

Lemma separator_cascade c :
  (let c := if Ascii.eqb "(" c then "_" else c in
   let c := if Ascii.eqb ")" c then "_" else c in
   let c := if Ascii.eqb "%" c then "_" else c in
   let c := if Ascii.eqb "&" c then "_" else c in
   let c := if Ascii.eqb "-" c then "_" else c in
   if Ascii.eqb " " c then "_" else c)%char = to_underscore c.
Proof. destruct c as [[] [] [] [] [] [] [] []]; reflexivity. Qed.

Lemma separators_replaced s :
  PyStr.replace " " "_" (PyStr.replace "-" "_" (PyStr.replace "&" "_"
    (PyStr.replace "%" "_" (PyStr.replace ")" "_" (PyStr.replace "(" "_" s))))) =
  map_chars to_underscore s.
Proof.
  rewrite !replace_char_char, !map_chars_twice.
  apply map_chars_ext. intros c. by rewrite <- separator_cascade.
Qed.

Lemma strip_leading_eq s :
  (if PyStr.startswith s "_" then PyStr.drop_first s else s) = strip_leading s.
Proof.
  destruct s as [|c t]; [done|].
  rewrite startswith_cons, startswith_empty, andb_true_r.
  by rewrite (Ascii.eqb_sym "_" c).
Qed.

Lemma substring_last a t :
  String.substring (String.length t) 1 (String a t) =
  match PyStr.last_char (String a t) with
  | Some c => String c ""
  | None => ""
  end.
Proof.
  revert a. induction t as [|b u IH]; intros a; [done|].
  exact (IH b).
Qed.

Lemma endswith_char s c :
  PyStr.endswith s (String c "") =
  match PyStr.last_char s with
  | Some d => Ascii.eqb d c
  | None => false
  end.
Proof.
  destruct s as [|a t]; [done|].
  unfold PyStr.endswith. cbn [String.length Nat.leb].
  replace (S (String.length t) - 1) with (String.length t) by lia.
  rewrite substring_last.
  destruct (PyStr.last_char (String a t)) as [d|]; [|done].
  simpl. by destruct (Ascii.eqb d c).
Qed.

Lemma strip_trailing_eq s :
  (if PyStr.endswith s "_" then PyStr.drop_last s else s) = strip_trailing s.
Proof.
  rewrite endswith_char. unfold strip_trailing.
  by destruct (PyStr.last_char s).
Qed.

(** The source function computes what the five steps of the specification
    describe. *)
Lemma step10_normalize name :
  step10_clean_column_name name = normalize name.
Proof.
  unfold step10_clean_column_name, normalize. cbv zeta.
  rewrite strip_trailing_eq, strip_leading_eq, collapse_loop_runs.
  by rewrite separators_replaced, quotes_deleted.
Qed.

End Normalizer.

Section NormalForm.

Import NormalizeSpec.

Lemma clean_after_steps c :
  is_quote (PyStr.lower_char c) ||
  is_clean_char (to_underscore (PyStr.lower_char c)) = true.
Proof. destruct c as [[] [] [] [] [] [] [] []]; reflexivity. Qed.

Lemma clean_char_fixed c :
  is_clean_char c = true ->
  PyStr.lower_char c = c /\ is_quote c = false /\ to_underscore c = c.
Proof.
  unfold is_clean_char, PyStr.lower_char, to_underscore.
  destruct (PyStr.is_upper c), (is_quote c), (is_separator c); done.
Qed.

Lemma all_chars_steps s :
  all_chars is_clean_char
    (map_chars to_underscore (delete_chars is_quote (PyStr.lower s))) = true.
Proof.
  induction s as [|c t IH]; [done|].
  cbn [PyStr.lower delete_chars].
  pose proof (clean_after_steps c) as Hc.
  destruct (is_quote (PyStr.lower_char c)); [done|].
  cbn [map_chars all_chars]. simpl in Hc. by rewrite Hc, IH.
Qed.

Lemma all_chars_collapse_runs p s :
  all_chars p s = true -> all_chars p (collapse_runs s) = true.
Proof.
  induction s as [|c t IH]; [done|].
  cbn [all_chars]. intros [Hc Ht]%andb_true_iff.
  rewrite collapse_runs_cons.
  destruct (Ascii.eqb c "_" && PyStr.startswith t "_"); [by apply IH|].
  cbn [all_chars]. by rewrite Hc, IH.
Qed.

Lemma all_chars_strip_leading p s :
  all_chars p s = true -> all_chars p (strip_leading s) = true.
Proof.
  destruct s as [|c t]; [done|]. simpl.
  destruct (Ascii.eqb c "_"); [|done]. by intros [_ ?]%andb_true_iff.
Qed.

Lemma all_chars_drop_last p s :
  all_chars p s = true -> all_chars p (PyStr.drop_last s) = true.
Proof.
  induction s as [|c t IH]; [done|].
  cbn [all_chars]. intros [Hc Ht]%andb_true_iff.
  destruct t as [|d u]; [done|].
  change (all_chars p (String c (PyStr.drop_last (String d u))) = true).
  cbn [all_chars]. by rewrite Hc, IH.
Qed.

Lemma all_chars_strip_trailing p s :
  all_chars p s = true -> all_chars p (strip_trailing s) = true.
Proof.
  unfold strip_trailing. intros H.
  destruct (PyStr.last_char s) as [c|]; [|done].
  destruct (Ascii.eqb c "_"); [|done]. by apply all_chars_drop_last.
Qed.

Lemma no_uu_collapse_runs s : PyStr.contains "__" (collapse_runs s) = false.
Proof. rewrite <- collapse_loop_runs. by apply collapse_loop_exits. Qed.

Lemma no_uu_cons c t :
  PyStr.contains "__" (String c t) = false <->
  (Ascii.eqb c "_" && PyStr.startswith t "_" = false) /\
  PyStr.contains "__" t = false.
Proof.
  rewrite contains_cons, startswith_cons, orb_false_iff.
  by rewrite (Ascii.eqb_sym "_" c).
Qed.

Lemma no_uu_strip_leading s :
  PyStr.contains "__" s = false -> PyStr.contains "__" (strip_leading s) = false.
Proof.
  destruct s as [|c t]; [done|]. intros H. simpl.
  destruct (Ascii.eqb c "_"); [|done]. by apply no_uu_cons in H as [_ ?].
Qed.

Lemma startswith_drop_last s c :
  PyStr.startswith (PyStr.drop_last s) (String c "") = true ->
  PyStr.startswith s (String c "") = true.
Proof.
  destruct s as [|a [|b u]]; [done|done|].
  change (PyStr.drop_last (String a (String b u)))
    with (String a (PyStr.drop_last (String b u))).
  by rewrite !startswith_cons, !startswith_empty.
Qed.

Lemma no_uu_drop_last s :
  PyStr.contains "__" s = false ->
  PyStr.contains "__" (PyStr.drop_last s) = false.
Proof.
  induction s as [|c t IH]; [done|].
  intros [Hc Ht]%no_uu_cons.
  destruct t as [|d u]; [done|].
  change (PyStr.drop_last (String c (String d u)))
    with (String c (PyStr.drop_last (String d u))).
  apply no_uu_cons. split; [|by apply IH].
  destruct (Ascii.eqb c "_"); [|done]. cbn [andb] in *.
  destruct (PyStr.startswith (PyStr.drop_last (String d u)) "_") eqn:E; [|done].
  apply startswith_drop_last in E. congruence.
Qed.

Lemma no_uu_strip_trailing s :
  PyStr.contains "__" s = false -> PyStr.contains "__" (strip_trailing s) = false.
Proof.
  unfold strip_trailing. intros H.
  destruct (PyStr.last_char s) as [c|]; [|done].
  destruct (Ascii.eqb c "_"); [|done]. by apply no_uu_drop_last.
Qed.

Lemma no_leading_strip_leading s :
  PyStr.contains "__" s = false ->
  PyStr.startswith (strip_leading s) "_" = false.
Proof.
  destruct s as [|c t]; [done|].
  intros [Hc _]%no_uu_cons. simpl.
  destruct (Ascii.eqb c "_") eqn:Ec; [done|].
  by rewrite startswith_cons, (Ascii.eqb_sym "_" c), Ec.
Qed.

Lemma no_leading_strip_trailing s :
  PyStr.startswith s "_" = false ->
  PyStr.startswith (strip_trailing s) "_" = false.
Proof.
  unfold strip_trailing. intros H.
  destruct (PyStr.last_char s) as [c|]; [|done].
  destruct (Ascii.eqb c "_"); [|done].
  destruct (PyStr.startswith (PyStr.drop_last s) "_") eqn:E; [|done].
  apply startswith_drop_last in E. congruence.
Qed.

(** In a string without a doubled underscore, the character before a final
    underscore is not an underscore. *)
Lemma last_char_drop_last s :
  PyStr.contains "__" s = false ->
  PyStr.last_char s = Some "_"%char ->
  PyStr.last_char (PyStr.drop_last s) <> Some "_"%char.
Proof.
  induction s as [|c t IH]; [done|].
  intros [Hc Ht]%no_uu_cons Hlast.
  destruct t as [|d [|e v]]; [done| |].
  - simpl in Hlast. injection Hlast as ->. simpl. intros [= ->]. 
    by rewrite startswith_cons in Hc.
  - by apply IH.
Qed.

Lemma no_trailing_strip_trailing s :
  PyStr.contains "__" s = false ->
  PyStr.endswith (strip_trailing s) "_" = false.
Proof.
  intros H. rewrite endswith_char. unfold strip_trailing.
  destruct (PyStr.last_char s) as [c|] eqn:E; [|by rewrite E].
  destruct (Ascii.eqb c "_") eqn:Ec; [|by rewrite E, Ec].
  apply Ascii.eqb_eq in Ec as ->.
  pose proof (last_char_drop_last s H E) as Hne.
  destruct (PyStr.last_char (PyStr.drop_last s)) as [d|]; [|done].
  destruct (Ascii.eqb d "_") eqn:Ed; [|done].
  apply Ascii.eqb_eq in Ed as ->. done.
Qed.

Lemma normalize_normal_form s : is_normal_form (normalize s) = true.
Proof.
  unfold is_normal_form, normalize.
  set (x := map_chars to_underscore (delete_chars is_quote (PyStr.lower s))).
  pose proof (no_uu_collapse_runs x) as Hr.
  rewrite all_chars_strip_trailing, no_uu_strip_trailing,
    no_leading_strip_trailing, no_trailing_strip_trailing; try done.
  - by apply no_uu_strip_leading.
  - by apply no_leading_strip_leading.
  - by apply no_uu_strip_leading.
  - by apply all_chars_strip_leading, all_chars_collapse_runs, all_chars_steps.
Qed.

Lemma all_clean_fixed s :
  all_chars is_clean_char s = true ->
  map_chars to_underscore (delete_chars is_quote (PyStr.lower s)) = s.
Proof.
  induction s as [|c t IH]; [done|].
  cbn [all_chars]. intros [Hc Ht]%andb_true_iff.
  apply clean_char_fixed in Hc as (Hl & Hq & Hu).
  cbn [PyStr.lower delete_chars]. rewrite Hl, Hq.
  cbn [map_chars]. by rewrite Hu, IH.
Qed.

Lemma normal_form_fixed s : is_normal_form s = true -> normalize s = s.
Proof.
  unfold is_normal_form, normalize.
  rewrite !andb_true_iff, !negb_true_iff. intros [[[Ha Hu] Hl] Ht].
  rewrite all_clean_fixed, collapse_runs_fixed by done.
  rewrite <- strip_leading_eq, Hl, <- strip_trailing_eq, Ht. done.
Qed.

End NormalForm.

(** ** Claims about the column-name cleaner *)

(** C6. [step10_clean_column_name] is a total function that computes exactly
    the five steps in their order: lowercase, delete the three quote
    characters, replace the six separators by an underscore, collapse runs of
    underscores, strip one leading and one trailing underscore.  Its loop
    always leaves by its condition: the fuel it is given is enough, and more
    fuel changes nothing.  [Patient's Name (%)] becomes [patients_name], and
    three underscores become the empty string. *)
Theorem step10_clean_column_name_spec :
  (forall name, step10_clean_column_name name = NormalizeSpec.normalize name) /\
  (forall s extra,
     collapse_loop (String.length s + extra) s = NormalizeSpec.collapse_runs s /\
     PyStr.contains "__" (collapse_loop (String.length s + extra) s) = false) /\
  step10_clean_column_name "Patient's Name (%)" = "patients_name" /\
  step10_clean_column_name "___" = "".
Proof.
  split; [exact step10_normalize|]. split; [|by split].
  intros s extra. split.
  - apply collapse_loop_fuel. lia.
  - apply collapse_loop_exits. lia.
Qed.

(** C7. No output of the cleaner contains two consecutive underscores; a name
    with several spaces in a row, [A   B], becomes [a_b]. *)
Theorem step10_no_doubled_underscore :
  (forall name, PyStr.contains "__" (step10_clean_column_name name) = false) /\
  step10_clean_column_name "A   B" = "a_b".
Proof.
  split; [|done]. intros name. rewrite step10_normalize.
  apply no_uu_strip_trailing, no_uu_strip_leading, no_uu_collapse_runs.
Qed.

(** C10. The cleaner is idempotent: cleaning a cleaned name returns it
    unchanged.  A cleaned name has no upper-case letter, no quote character
    and no separator, no doubled underscore, and no underscore at either
    end. *)
Theorem step10_idempotent :
  forall name,
    step10_clean_column_name (step10_clean_column_name name) =
    step10_clean_column_name name /\
    NormalizeSpec.is_normal_form (step10_clean_column_name name) = true.
Proof.
  intros name. rewrite !step10_normalize.
  pose proof (normalize_normal_form name) as H.
  split; [by apply normal_form_fixed|done].
Qed.

(** ** The filter and the change detector *)

Section ListPasses.

Lemma fold_append_if {A} (keep : A -> bool) (l out : list A) :
  fold_left (append_if keep) l out = out ++ List.filter keep l.
Proof.
  revert out. induction l as [|x l IH]; intros out; simpl.
  - by rewrite app_nil_r.
  - rewrite IH. unfold append_if. destruct (keep x); [|done].
    by rewrite <- app_assoc.
Qed.

Lemma startswith_spec p s :
  PyStr.startswith s p = true <-> exists post, s = p +:+ post.
Proof.
  revert s. induction p as [|c p IH]; intros s.
  - rewrite startswith_empty. split; [|done]. intros _. by exists s.
  - destruct s as [|a t].
    + rewrite startswith_nil_cons. split; [done|]. by intros [post H].
    + rewrite startswith_cons, andb_true_iff, Ascii.eqb_eq, IH.
      split.
      * intros [-> [post ->]]. by exists post.
      * intros [post H]. simpl in H. injection H as -> ->. eauto.
Qed.

Lemma contains_spec sub s :
  PyStr.contains sub s = true <-> is_substring sub s.
Proof.
  unfold is_substring. induction s as [|c t IH].
  - cbn [PyStr.contains]. rewrite startswith_spec. split.
    + intros [post H]. by exists "", post.
    + intros (pre & post & H). destruct pre; [by exists post|done].
  - rewrite contains_cons, orb_true_iff, startswith_spec, IH. split.
    + intros [[post H]|(pre & post & ->)].
      * by exists "", post.
      * by exists (String c pre), post.
    + intros (pre & post & H). destruct pre as [|a pre].
      * left. by exists post.
      * right. simpl in H. injection H as -> ->. eauto.
Qed.

Lemma existsb_contains sub (l : list string) :
  existsb (fun x => PyStr.contains sub (PyStr.lower x)) l = true <->
  exists x, In x l /\ is_substring sub (PyStr.lower x).
Proof.
  rewrite existsb_exists. by setoid_rewrite contains_spec.
Qed.

Lemma is_hospital_related_spec topic dataset :
  is_hospital_related (PyStr.lower topic) dataset = true <->
  relevant topic dataset.
Proof.
  unfold is_hospital_related, relevant. cbv zeta.
  rewrite !orb_true_iff, !existsb_contains, !contains_spec. tauto.
Qed.

Lemma is_new_or_updated_spec metadata dataset :
  is_new_or_updated metadata dataset = true <-> changed metadata dataset.
Proof.
  unfold is_new_or_updated, changed. cbv zeta.
  destruct (files metadata !! identifier dataset) as [stored|].
  - rewrite negb_true_iff, bool_decide_eq_false. split.
    + intros H. right. by exists stored.
    + intros [H|(m & [= ->] & H)]; done.
  - split; [by left|done].
Qed.

End ListPasses.

(** C5. The relevance filter keeps a descriptor exactly when the lowercased
    topic occurs in its lowercased title, description, a theme or a keyword,
    or [hospital] occurs in its lowercased title or description; the result
    is the input filtered in place, so the kept descriptors stay in their
    input order. *)
Theorem step6_filter_hospital_datasets_spec :
  forall config all_datasets,
    let keep := is_hospital_related (PyStr.lower (THEME_FILTER config)) in
    step6_filter_hospital_datasets config all_datasets =
      List.filter keep all_datasets /\
    (forall d, keep d = true <-> relevant (THEME_FILTER config) d) /\
    (forall d, In d (step6_filter_hospital_datasets config all_datasets) <->
               In d all_datasets /\ relevant (THEME_FILTER config) d).
Proof.
  intros config all_datasets keep.
  assert (step6_filter_hospital_datasets config all_datasets =
          List.filter keep all_datasets) as E.
  { unfold step6_filter_hospital_datasets. cbv zeta. by rewrite fold_append_if. }
  split; [done|]. split.
  - intros d. apply is_hospital_related_spec.
  - intros d. rewrite E, filter_In. unfold keep.
    by rewrite is_hospital_related_spec.
Qed.

(** C1. The change detector includes a candidate exactly when its identifier
    is absent from the state's files mapping or is present with a stored
    marker not equal to the candidate's marker; only equality of markers
    matters, never their order. *)
Theorem step7_find_new_or_updated_files_spec :
  forall datasets metadata,
    step7_find_new_or_updated_files datasets metadata =
      List.filter (is_new_or_updated metadata) datasets /\
    (forall d, is_new_or_updated metadata d = true <-> changed metadata d) /\
    (forall d, In d (step7_find_new_or_updated_files datasets metadata) <->
               In d datasets /\ changed metadata d).
Proof.
  intros datasets metadata.
  assert (step7_find_new_or_updated_files datasets metadata =
          List.filter (is_new_or_updated metadata) datasets) as E.
  { unfold step7_find_new_or_updated_files. by rewrite fold_append_if. }
  split; [done|]. split.
  - intros d. apply is_new_or_updated_spec.
  - intros d. by rewrite E, filter_In, is_new_or_updated_spec.
Qed.

(** ** Recording markers and re-running the change detector *)

Section Idempotence.

Lemma step12_cons metadata d rest :
  step12_update_metadata metadata (d :: rest) =
  step12_update_metadata (record_marker metadata d) rest.
Proof. reflexivity. Qed.

(** After the update an identifier maps to the marker of the last processed
    descriptor that carries it, and keeps its old entry when none does. *)
Lemma step12_lookup metadata processed file_id :
  files (step12_update_metadata metadata processed) !! file_id =
  match last_marker file_id processed with
  | Some m => Some m
  | None => files metadata !! file_id
  end.
Proof.
  revert metadata. induction processed as [|d rest IH]; intros metadata; [done|].
  rewrite step12_cons, IH. cbn [last_marker].
  destruct (last_marker file_id rest) as [m|]; [done|].
  cbn [record_marker files].
  destruct (String.eqb (identifier d) file_id) eqn:E.
  - apply String.eqb_eq in E as <-. by rewrite lookup_insert_eq.
  - apply String.eqb_neq in E. by rewrite lookup_insert_ne.
Qed.

Lemma step12_last_run metadata processed :
  last_run (step12_update_metadata metadata processed) = last_run metadata.
Proof.
  revert metadata. induction processed as [|d rest IH]; intros metadata; [done|].
  by rewrite step12_cons, IH.
Qed.

Lemma last_marker_Some file_id datasets m :
  last_marker file_id datasets = Some m ->
  exists d, In d datasets /\ identifier d = file_id /\ modified d = m.
Proof.
  induction datasets as [|d rest IH]; [done|]. cbn [last_marker].
  destruct (last_marker file_id rest) as [m'|].
  - intros [= ->]. destruct IH as (d' & ? & ? & ?); [done|].
    exists d'. split; [by right|done].
  - destruct (String.eqb (identifier d) file_id) eqn:E; [|done].
    intros [= <-]. apply String.eqb_eq in E. exists d. split; [by left|done].
Qed.

Lemma last_marker_In d datasets :
  In d datasets -> is_Some (last_marker (identifier d) datasets).
Proof.
  induction datasets as [|d' rest IH]; [done|]. cbn [last_marker].
  intros [->|Hin].
  - destruct (last_marker (identifier d) rest); [done|].
    by rewrite String.eqb_refl.
  - destruct (IH Hin) as [m ->]. done.
Qed.

Lemma consistent_markers_sublist keep datasets :
  consistent_markers datasets ->
  consistent_markers (List.filter keep datasets).
Proof.
  intros H d1 d2 [H1 _]%filter_In [H2 _]%filter_In. by apply H.
Qed.

Lemma check_consistent_markers_sound datasets :
  check_consistent_markers datasets = true -> consistent_markers datasets.
Proof.
  unfold check_consistent_markers. rewrite forallb_forall.
  intros H d1 d2 H1 H2 Hid.
  specialize (H d1 H1). rewrite forallb_forall in H. specialize (H d2 H2).
  unfold agree in H. apply String.eqb_eq in Hid. rewrite Hid in H.
  by apply bool_decide_eq_true in H.
Qed.

Lemma filter_none {A} (keep : A -> bool) (l : list A) :
  (forall x, In x l -> keep x = false) -> List.filter keep l = [].
Proof.
  induction l as [|x l IH]; [done|]. intros H. simpl.
  rewrite (H x) by (by left). apply IH. intros y Hy. apply H. by right.
Qed.

Lemma unique_identifiers_consistent datasets :
  NoDup (map identifier datasets) -> consistent_markers datasets.
Proof.
  induction datasets as [|d rest IH]; [by intros _ ? ? []|].
  cbn [map]. intros [Hfresh Hrest]%NoDup_cons d1 d2 H1 H2 Hid.
  assert (forall x, In x rest -> identifier x <> identifier d) as Hne.
  { intros x Hx E. apply Hfresh. rewrite <- E.
    apply list_elem_of_In, in_map, Hx. }
  destruct H1 as [<-|H1], H2 as [<-|H2]; [done| | |by apply IH].
  - by destruct (Hne d2 H2).
  - by destruct (Hne d1 H1).
Qed.

(** With consistent markers the second diff is empty. *)
Lemma second_diff_empty catalog metadata :
  consistent_markers catalog ->
  step7_find_new_or_updated_files catalog
    (step12_update_metadata metadata
       (step7_find_new_or_updated_files catalog metadata)) = [].
Proof.
  intros Hcons.
  unfold step7_find_new_or_updated_files at 1. rewrite fold_append_if.
  cbn [app]. apply filter_none.
  set (diff := step7_find_new_or_updated_files catalog metadata).
  { intros d Hd. unfold is_new_or_updated. cbv zeta. rewrite step12_lookup.
    destruct (last_marker (identifier d) diff) as [m|] eqn:Em.
    - apply last_marker_Some in Em as (d' & Hd' & Hid & <-).
      assert (In d' catalog) as Hc.
      { unfold diff, step7_find_new_or_updated_files in Hd'.
        rewrite fold_append_if in Hd'. by apply filter_In in Hd' as [? _]. }
      rewrite (Hcons d' d Hc Hd Hid). by rewrite bool_decide_eq_true_2.
    - destruct (is_new_or_updated metadata d) eqn:En.
      + assert (In d diff) as Hin.
        { unfold diff, step7_find_new_or_updated_files.
          rewrite fold_append_if. by apply filter_In. }
        apply last_marker_In in Hin as [m Hm]. congruence.
      + unfold is_new_or_updated in En. cbv zeta in En.
        by destruct (files metadata !! identifier d). }
Qed.

End Idempotence.

(** Where an identifier is listed twice with two markers, the update keeps
    the later marker and the second diff reports the earlier descriptor
    again: the uniqueness of identifiers is what idempotence rests on. *)
Example duplicate_identifier_is_reported_again :
  let diff := step7_find_new_or_updated_files Examples.twice Examples.empty_state in
  diff = Examples.twice /\
  step7_find_new_or_updated_files Examples.twice
    (step12_update_metadata Examples.empty_state diff) =
  [Examples.descriptor "xubh-q36u" "2024-01-01"].
Proof. by vm_compute. Qed.

(** C2. Re-running is idempotent at the diff phase: for every catalog, whose
    identifiers are unique as the data model has them, and every state,
    recording for each descriptor of the diff its identifier with its marker
    and running the change detector again on the same catalog gives the
    empty sequence. *)
Theorem rerun_diff_empty :
  forall catalog metadata,
    NoDup (map identifier catalog) ->
    step7_find_new_or_updated_files catalog
      (step12_update_metadata metadata
         (step7_find_new_or_updated_files catalog metadata)) = [].
Proof.
  intros catalog metadata Hunique.
  by apply second_diff_empty, unique_identifiers_consistent.
Qed.

Lemma rerun_diff_empty_witness :
  step7_find_new_or_updated_files Examples.distinct
    (step12_update_metadata Examples.empty_state
       (step7_find_new_or_updated_files Examples.distinct Examples.empty_state)) = [].
Proof.
  apply (rerun_diff_empty Examples.distinct Examples.empty_state).
  apply (bool_decide_unpack _). vm_compute. exact I.
Defined.

(** ** The table transform *)

Section Transform.

Lemma fold_append_map {A B} (f : A -> B) (l : list A) (out : list B) :
  fold_left (fun acc x => acc ++ [f x]) l out = out ++ map f l.
Proof.
  revert out. induction l as [|x l IH]; intros out; simpl.
  - by rewrite app_nil_r.
  - by rewrite IH, <- app_assoc.
Qed.

Lemma step11_process_single_file_ok config file_path file_id w header rows :
  csv_files w !! file_path = Some (header :: rows) ->
  step11_process_single_file config file_path file_id w =
  (inr (os_path_join (CLEANED_DIR config) (file_id +:+ "_cleaned.csv")),
   write_csv (os_path_join (CLEANED_DIR config) (file_id +:+ "_cleaned.csv"))
             (map step10_clean_column_name header :: rows) w).
Proof.
  intros H. unfold step11_process_single_file. rewrite H.
  by rewrite fold_append_map.
Qed.

End Transform.

(** What the model writes as a table is what the transform hands to
    [csv.writer]: the text of the cleaned file is that table written out. *)
Lemma step11_transform_text_table config file_path file_id w source header rows :
  Csv.reader source = inr (header :: rows) ->
  csv_files w !! file_path = Some (header :: rows) ->
  exists out table,
    step11_process_single_file config file_path file_id w =
      (inr out, write_csv out table w) /\
    step11_transform_text source = inr (Csv.writerows table).
Proof.
  intros Hread Hfile. eexists _, _.
  rewrite (step11_process_single_file_ok _ _ _ _ _ _ Hfile).
  split; [reflexivity|].
  unfold step11_transform_text. rewrite Hread. by rewrite fold_append_map.
Qed.

(** C8, as stated, fails: the data rows are not copied, they are parsed and
    written anew.  A source whose lines end with LF comes out with lines
    that end with CR LF, so its data row does not occur in the output. *)
Lemma data_rows_are_rewritten :
  let LF := String Csv.LF "" in
  let CRLF := Csv.lineterminator in
  let source := "Facility ID,Hospital Name" +:+ LF +:+ "010001,Mercy" +:+ LF in
  let output :=
    "facility_id,hospital_name" +:+ CRLF +:+ "010001,Mercy" +:+ CRLF in
  Csv.reader source =
    inr [["Facility ID"; "Hospital Name"]; ["010001"; "Mercy"]] /\
  step11_transform_text source = inr output /\
  PyStr.contains ("010001,Mercy" +:+ LF) source = true /\
  PyStr.contains ("010001,Mercy" +:+ LF) output = false.
Proof. by vm_compute. Qed.

(** C8, amended.  For a source file that reads as a header row followed by
    data rows, the transform writes, under the cleaned directory, the header
    with the cleaner applied to every cell, followed by the data rows as they
    were read, in their order: the same number of rows, every cell
    unchanged.  (The characters of a row are those [csv.writer] gives it.) *)
Theorem step11_process_single_file_spec :
  forall config file_path file_id w header rows,
    csv_files w !! file_path = Some (header :: rows) ->
    let cleaned_path :=
      os_path_join (CLEANED_DIR config) (file_id +:+ "_cleaned.csv") in
    let w' := snd (step11_process_single_file config file_path file_id w) in
    fst (step11_process_single_file config file_path file_id w) = inr cleaned_path /\
    csv_files w' !! cleaned_path =
      Some (map step10_clean_column_name header :: rows) /\
    w' = write_csv cleaned_path (map step10_clean_column_name header :: rows) w.
Proof.
  intros config file_path file_id w header rows H cleaned_path w'.
  unfold w'. rewrite (step11_process_single_file_ok _ _ _ _ _ _ H).
  cbn [fst snd]. split; [done|]. split; [|done].
  unfold write_csv. cbn [csv_files]. by rewrite lookup_insert_eq.
Qed.

Lemma step11_process_single_file_spec_witness :
  let w' := snd (step11_process_single_file step1_load_constants
                   "downloads/xubh-q36u.csv" "xubh-q36u" TransformExample.world) in
  fst (step11_process_single_file step1_load_constants
         "downloads/xubh-q36u.csv" "xubh-q36u" TransformExample.world) =
    inr (os_path_join "cleaned" "xubh-q36u_cleaned.csv") /\
  csv_files w' !! os_path_join "cleaned" "xubh-q36u_cleaned.csv" =
    Some (map step10_clean_column_name ["Facility ID"; "Patient's Name (%)"; "A   B"]
          :: [["010001"; "O'Neil (Jr.)"; "x - y"]; ["010005"; ""; "100%"]]) /\
  w' = write_csv (os_path_join "cleaned" "xubh-q36u_cleaned.csv")
         (map step10_clean_column_name ["Facility ID"; "Patient's Name (%)"; "A   B"]
          :: [["010001"; "O'Neil (Jr.)"; "x - y"]; ["010005"; ""; "100%"]])
         TransformExample.world.
Proof.
  apply (step11_process_single_file_spec step1_load_constants
           "downloads/xubh-q36u.csv" "xubh-q36u" TransformExample.world).
  vm_compute. reflexivity.
Defined.

(** ** The worker pool and the orchestrator *)

Section Pipeline.

Lemma only_csv_changed_refl w : only_csv_changed w w.
Proof. by repeat split. Qed.

Lemma only_csv_changed_trans w1 w2 w3 :
  only_csv_changed w1 w2 -> only_csv_changed w2 w3 -> only_csv_changed w1 w3.
Proof.
  intros (? & ? & ? & ?) (? & ? & ? & ?). repeat split; congruence.
Qed.

Lemma write_csv_frame path t w : only_csv_changed w (write_csv path t w).
Proof. by repeat split. Qed.

Lemma step8_frame config dataset w :
  only_csv_changed w (snd (step8_download_single_file config dataset w)).
Proof.
  unfold step8_download_single_file.
  destruct (distribution dataset) as [[|first rest]|];
    try apply only_csv_changed_refl.
  destruct (downloadURL first) as [url|]; [|apply only_csv_changed_refl].
  unfold bind, urlretrieve.
  destruct (remote_files w !! url);
    [apply write_csv_frame|apply only_csv_changed_refl].
Qed.

Lemma process_single_frame config file_info w :
  only_csv_changed w (snd (process_single config file_info w)).
Proof.
  destruct file_info as [file_path file_id].
  unfold process_single, step11_process_single_file.
  destruct (csv_files w !! file_path) as [[|header rows]|];
    try apply only_csv_changed_refl.
  apply write_csv_frame.
Qed.

Lemma run_to_completion_frame {T R} (worker : T -> M R) items w :
  (forall x w, only_csv_changed w (snd (worker x w))) ->
  only_csv_changed w (run_to_completion worker items w).
Proof.
  intros Hw. revert w.
  induction items as [|x rest IH]; intros w; [apply only_csv_changed_refl|].
  simpl. eapply only_csv_changed_trans; [apply (Hw x w)|apply IH].
Qed.

Lemma executor_map_cons {T R} started (worker : T -> M R) x rest w :
  executor_map started worker (x :: rest) w =
  match worker x w with
  | (inr r, w1) =>
      match executor_map (pred started) worker rest w1 with
      | (inr rs, w2) => (inr (r :: rs), w2)
      | (inl e, w2) => (inl e, w2)
      end
  | (inl e, w1) =>
      (inl (reraise e), run_to_completion worker (take (pred started) rest) w1)
  end.
Proof. reflexivity. Qed.

Lemma executor_map_frame {T R} started (worker : T -> M R) items w :
  (forall x w, only_csv_changed w (snd (worker x w))) ->
  only_csv_changed w (snd (executor_map started worker items w)).
Proof.
  intros Hw. revert started w.
  induction items as [|x rest IH]; intros started w;
    [apply only_csv_changed_refl|].
  rewrite executor_map_cons.
  pose proof (Hw x w) as Hx.
  destruct (worker x w) as [[e|r] w1]; cbn [snd] in *.
  - eapply only_csv_changed_trans; [done|]. by apply run_to_completion_frame.
  - pose proof (IH (pred started) w1) as Hrest.
    destruct (executor_map (pred started) worker rest w1) as [[e|rs] w2];
      cbn [snd] in *; by eapply only_csv_changed_trans.
Qed.

(** The first failing item decides the outcome of the pool: its error is
    raised, the items started before that still run, the others never do. *)
Lemma executor_map_first_failure {T R} started started' (worker : T -> M R)
    pre x post w rs w1 e w2 :
  executor_map started' worker pre w = (inr rs, w1) ->
  worker x w1 = (inl e, w2) ->
  executor_map started worker (pre ++ x :: post) w =
  (inl (reraise e),
   run_to_completion worker (take (pred (started - length pre)) post) w2).
Proof.
  revert started started' w rs.
  induction pre as [|p pre IH]; intros started started' w rs Hpre Hx.
  - injection Hpre as <- <-. cbn [app length].
    by rewrite executor_map_cons, Hx, Nat.sub_0_r.
  - rewrite executor_map_cons in Hpre. cbn [app].
    rewrite executor_map_cons.
    destruct (worker p w) as [[e0|r] w0]; [done|].
    destruct (executor_map (pred started') worker pre w0) as [[e0|rs'] w0'] eqn:E;
      [done|].
    injection Hpre as <- <-.
    rewrite (IH (pred started) _ _ _ E Hx).
    by replace (pred started - length pre) with (started - length (p :: pre))
      by (cbn [length]; lia).
Qed.

Lemma run_complete_pipeline_unfold config sched w metadata all_datasets :
  step3_load_previous_metadata w = (inr metadata, w) ->
  api_response w = inr all_datasets ->
  run_complete_pipeline config sched w =
  let new_files :=
    step7_find_new_or_updated_files
      (step6_filter_hospital_datasets config all_datasets) metadata in
  match new_files with
  | [] => (inr tt, w)
  | _ :: _ =>
      match step9_download_files_parallel config (started_downloads sched)
              new_files w with
      | (inr download_results, w1) =>
          match step11_process_files_parallel config (started_transforms sched)
                  download_results w1 with
          | (inr _, w2) =>
              step4_save_metadata (step12_update_metadata metadata new_files) w2
          | (inl e, w2) => (inl e, w2)
          end
      | (inl e, w1) => (inl e, w1)
      end
  end.
Proof.
  intros H3 H5. unfold run_complete_pipeline, bind at 1. rewrite H3.
  unfold bind at 1, step5_fetch_all_datasets. rewrite H5. cbv zeta.
  destruct (step7_find_new_or_updated_files _ metadata); [done|].
  unfold bind. done.
Qed.

Lemma step3_world w : snd (step3_load_previous_metadata w) = w.
Proof. unfold step3_load_previous_metadata. by destruct (metadata_file w). Qed.

Lemma step9_frame config started datasets w :
  only_csv_changed w
    (snd (step9_download_files_parallel config started datasets w)).
Proof. apply executor_map_frame. intros. apply step8_frame. Qed.

Lemma step11_parallel_frame config started results w :
  only_csv_changed w
    (snd (step11_process_files_parallel config started results w)).
Proof. apply executor_map_frame. intros. apply process_single_frame. Qed.

Lemma last_marker_None file_id datasets :
  (forall d, In d datasets -> identifier d <> file_id) ->
  last_marker file_id datasets = None.
Proof.
  intros H. destruct (last_marker file_id datasets) as [m|] eqn:E; [|done].
  apply last_marker_Some in E as (d & Hd & Hid & _). by destruct (H d Hd).
Qed.

Lemma last_marker_consistent d datasets :
  consistent_markers datasets -> In d datasets ->
  last_marker (identifier d) datasets = Some (modified d).
Proof.
  intros Hc Hd. destruct (last_marker_In d datasets Hd) as [m Hm].
  rewrite Hm. apply last_marker_Some in Hm as (d' & Hd' & Hid & <-).
  by rewrite (Hc d' d Hd' Hd Hid).
Qed.

End Pipeline.

(** C9. When the diff is empty the run returns normally and leaves the world
    as it found it: nothing is downloaded or transformed and the state file,
    with its [last_run], is not written. *)
Theorem empty_diff_no_side_effects :
  forall config sched w metadata all_datasets,
    step3_load_previous_metadata w = (inr metadata, w) ->
    api_response w = inr all_datasets ->
    step7_find_new_or_updated_files
      (step6_filter_hospital_datasets config all_datasets) metadata = [] ->
    run_complete_pipeline config sched w = (inr tt, w).
Proof.
  intros config sched w metadata all_datasets H3 H5 Hdiff.
  rewrite (run_complete_pipeline_unfold _ _ _ _ _ H3 H5). cbv zeta.
  by rewrite Hdiff.
Qed.

Lemma empty_diff_no_side_effects_witness :
  run_complete_pipeline step1_load_constants RunExample.all_started
    (RunExample.world (Stored RunExample.synced) [RunExample.good]) =
  (inr tt, RunExample.world (Stored RunExample.synced) [RunExample.good]).
Proof.
  apply (empty_diff_no_side_effects step1_load_constants RunExample.all_started
           (RunExample.world (Stored RunExample.synced) [RunExample.good])
           RunExample.synced [RunExample.good]).
  - reflexivity.
  - reflexivity.
  - vm_compute. reflexivity.
Defined.

(** C3, as stated, fails: with one item that cannot be downloaded the run
    ends with that item's error.  The sibling's download has completed, but
    it is never transformed, no result is returned, and the state file is not
    written. *)
Lemma failed_download_aborts_run :
  let w := RunExample.world NoFile [RunExample.no_distribution; RunExample.good] in
  let outcome :=
    run_complete_pipeline step1_load_constants RunExample.all_started w in
  fst outcome = inl (ValueError "No distribution found for yv7e-xc69") /\
  metadata_file (snd outcome) = NoFile /\
  csv_files (snd outcome) = {[ "downloads/xubh-q36u.csv" := RunExample.raw ]}.
Proof. by vm_compute. Qed.

(** C3, amended.  A failure of one item's worker is not confined to that
    item.  The pool raises the error of the first failing item in input
    order; items that had started by then still run, the others never do, and
    every outcome but the error is dropped.  The run ends with that error,
    whether it comes from the download or from the transform phase, before
    the state is updated or written: the state file is as it was. *)
Theorem worker_failure_aborts_run :
  (forall T R started started' (worker : T -> M R) pre x post w rs w1 e w2,
     executor_map started' worker pre w = (inr rs, w1) ->
     worker x w1 = (inl e, w2) ->
     executor_map started worker (pre ++ x :: post) w =
     (inl (reraise e),
      run_to_completion worker (take (pred (started - length pre)) post) w2)) /\
  (forall config sched w metadata all_datasets,
     step3_load_previous_metadata w = (inr metadata, w) ->
     api_response w = inr all_datasets ->
     let new_files :=
       step7_find_new_or_updated_files
         (step6_filter_hospital_datasets config all_datasets) metadata in
     (forall e w1,
        step9_download_files_parallel config (started_downloads sched)
          new_files w = (inl e, w1) ->
        run_complete_pipeline config sched w = (inl e, w1) /\
        metadata_file w1 = metadata_file w) /\
     (forall download_results w1 e w2,
        step9_download_files_parallel config (started_downloads sched)
          new_files w = (inr download_results, w1) ->
        step11_process_files_parallel config (started_transforms sched)
          download_results w1 = (inl e, w2) ->
        run_complete_pipeline config sched w = (inl e, w2) /\
        metadata_file w2 = metadata_file w)).
Proof.
  split; [intros; by eapply executor_map_first_failure|].
  intros config sched w metadata all_datasets H3 H5 new_files.
  rewrite (run_complete_pipeline_unfold _ _ _ _ _ H3 H5). cbv zeta.
  fold new_files. split.
  - intros e w1 H9.
    pose proof (step9_frame config (started_downloads sched) new_files w) as F.
    rewrite H9 in F |- *. destruct F as [F _].
    destruct new_files; [done|]. done.
  - intros download_results w1 e w2 H9 H11.
    pose proof (step9_frame config (started_downloads sched) new_files w) as F9.
    pose proof (step11_parallel_frame config (started_transforms sched)
                  download_results w1) as F11.
    rewrite H9 in F9 |- *. rewrite H11 in F11 |- *.
    destruct F9 as [F9 _], F11 as [F11 _]. cbn [snd] in *.
    split; [|congruence].
    destruct new_files; [|done].
    injection H9 as <- <-. done.
Qed.

Lemma worker_failure_aborts_run_witness :
  let w := RunExample.world NoFile [RunExample.good; RunExample.no_distribution] in
  let w1 := write_csv "downloads/xubh-q36u.csv" RunExample.raw w in
  run_complete_pipeline step1_load_constants RunExample.all_started w =
    (inl (ValueError "No distribution found for yv7e-xc69"), w1) /\
  metadata_file w1 = metadata_file w.
Proof.
  apply (proj2 worker_failure_aborts_run step1_load_constants
           RunExample.all_started
           (RunExample.world NoFile [RunExample.good; RunExample.no_distribution])
           {| files := ∅; last_run := None |}
           [RunExample.good; RunExample.no_distribution]).
  - reflexivity.
  - reflexivity.
  - vm_compute. reflexivity.
Defined.

(** C4, as stated, fails in two ways.  When an item of the diff set cannot be
    downloaded, the run ends before the update: the state read back afterwards
    maps no identifier.  When the diff set lists an identifier twice, the
    state keeps the marker of the later descriptor, not that of the earlier
    one. *)
Lemma failed_run_records_nothing :
  (let w := RunExample.world NoFile [RunExample.good; RunExample.no_distribution] in
   let outcome :=
     run_complete_pipeline step1_load_constants RunExample.all_started w in
   step7_find_new_or_updated_files
     (step6_filter_hospital_datasets step1_load_constants
        [RunExample.good; RunExample.no_distribution])
     Examples.empty_state = [RunExample.good; RunExample.no_distribution] /\
   fst outcome = inl (ValueError "No distribution found for yv7e-xc69") /\
   fst (step3_load_previous_metadata (snd outcome)) = inr Examples.empty_state /\
   files Examples.empty_state !! identifier RunExample.good = None) /\
  (let w := RunExample.world NoFile [RunExample.good; RunExample.good_later] in
   let outcome :=
     run_complete_pipeline step1_load_constants RunExample.all_started w in
   fst outcome = inr tt /\
   metadata_file (snd outcome) =
     Stored {| files := {[ "xubh-q36u" := Some "2024-02-01" ]};
               last_run := Some "2024-03-01T06:00:00" |} /\
   identifier RunExample.good = "xubh-q36u" /\
   modified RunExample.good = Some "2024-01-01").
Proof. by vm_compute. Qed.

(** C4, amended.  After a run whose diff set is not empty and in which every
    download and transform succeeded, the state file holds the loaded state
    updated from the input diff set: every identifier of the diff set maps to
    the marker of the last descriptor of the diff set that carries it (the
    descriptor's own marker when descriptors sharing an identifier share a
    marker), other identifiers keep their entry, and [last_run] is the time
    of the save.  After a run in which a download or transform failed, the
    state file is as it was. *)
Theorem run_records_diff :
  forall config sched w metadata all_datasets,
    step3_load_previous_metadata w = (inr metadata, w) ->
    api_response w = inr all_datasets ->
    let new_files :=
      step7_find_new_or_updated_files
        (step6_filter_hospital_datasets config all_datasets) metadata in
    new_files <> [] ->
    match run_complete_pipeline config sched w with
    | (inr _, w') =>
        let updated := step12_update_metadata metadata new_files in
        metadata_file w' =
          Stored {| files := files updated; last_run := Some (clock w) |} /\
        (forall d, In d new_files ->
           files updated !! identifier d = last_marker (identifier d) new_files) /\
        (consistent_markers new_files ->
         forall d, In d new_files ->
           files updated !! identifier d = Some (modified d)) /\
        (forall file_id,
           (forall d, In d new_files -> identifier d <> file_id) ->
           files updated !! file_id = files metadata !! file_id)
    | (inl _, w') => metadata_file w' = metadata_file w
    end.
Proof.
  intros config sched w metadata all_datasets H3 H5 new_files Hne.
  rewrite (run_complete_pipeline_unfold _ _ _ _ _ H3 H5). cbv zeta.
  fold new_files.
  pose proof (step9_frame config (started_downloads sched) new_files w) as F9.
  destruct new_files as [|d0 rest] eqn:En; [done|]. rewrite <- En in *.
  destruct (step9_download_files_parallel config (started_downloads sched)
              new_files w) as [[e|download_results] w1]; cbn [snd] in F9.
  { by destruct F9. }
  pose proof (step11_parallel_frame config (started_transforms sched)
                download_results w1) as F11.
  destruct (step11_process_files_parallel config (started_transforms sched)
              download_results w1) as [[e|processed] w2]; cbn [snd] in F11.
  { destruct F9 as [? _], F11 as [? _]. congruence. }
  unfold step4_save_metadata. cbn [set_metadata_file metadata_file].
  destruct F9 as (_ & _ & _ & C9), F11 as (_ & _ & _ & C11).
  split; [by rewrite C11, C9|]. split; [|split].
  - intros d Hd. rewrite step12_lookup.
    by destruct (last_marker_In d new_files Hd) as [m ->].
  - intros Hc d Hd. by rewrite step12_lookup, last_marker_consistent.
  - intros file_id Hid. by rewrite step12_lookup, last_marker_None.
Qed.

Lemma run_records_diff_witness :
  let w := RunExample.world (Stored RunExample.synced) [RunExample.good_later] in
  let new_files :=
    step7_find_new_or_updated_files
      (step6_filter_hospital_datasets step1_load_constants [RunExample.good_later])
      RunExample.synced in
  match run_complete_pipeline step1_load_constants RunExample.all_started w with
  | (inr _, w') =>
      let updated := step12_update_metadata RunExample.synced new_files in
      metadata_file w' =
        Stored {| files := files updated; last_run := Some (clock w) |} /\
      (forall d, In d new_files ->
         files updated !! identifier d = last_marker (identifier d) new_files) /\
      (consistent_markers new_files ->
       forall d, In d new_files ->
         files updated !! identifier d = Some (modified d)) /\
      (forall file_id,
         (forall d, In d new_files -> identifier d <> file_id) ->
         files updated !! file_id = files RunExample.synced !! file_id)
  | (inl _, w') => metadata_file w' = metadata_file w
  end.
Proof.
  apply (run_records_diff step1_load_constants RunExample.all_started
           (RunExample.world (Stored RunExample.synced) [RunExample.good_later])
           RunExample.synced [RunExample.good_later]).
  - reflexivity.
  - reflexivity.
  - vm_compute. discriminate.
Defined.

(** ** Worked cases *)

(** A theme [Hospitals] matches the topic [hospitals], whatever the title. *)
Example theme_matches_case_insensitively :
  step6_filter_hospital_datasets step1_load_constants
    [{| identifier := "a"; title := Some "Readmissions"; description := None;
        theme := Some ["Hospitals"]; keyword := None; modified := None;
        distribution := None |};
     {| identifier := "b"; title := Some "Nursing homes"; description := None;
        theme := Some ["Dialysis"]; keyword := None; modified := None;
        distribution := None |}] =
    [{| identifier := "a"; title := Some "Readmissions"; description := None;
        theme := Some ["Hospitals"]; keyword := None; modified := None;
        distribution := None |}].
Proof. reflexivity. Qed.

(** A marker older than the stored one counts as a change; an equal one does
    not; an unknown identifier does. *)
Example backward_marker_is_a_change :
  step7_find_new_or_updated_files
    [RunExample.good; RunExample.good_later; RunExample.no_distribution]
    {| files := {[ "xubh-q36u" := Some "2024-02-01" ]}; last_run := None |} =
  [RunExample.good; RunExample.no_distribution].
Proof. by vm_compute. Qed.

(** An empty downloaded file stops the transform, and the pool reports it as
    a [RuntimeError]. *)
Example headerless_file_fails :
  fst (step11_process_files_parallel step1_load_constants 1
         [("downloads/empty.csv", "empty")]
         {| metadata_file := NoFile;
            csv_files := {[ "downloads/empty.csv" := [] ]};
            api_response := inr []; remote_files := ∅; clock := "" |}) =
  inl (RuntimeError "generator raised StopIteration").
Proof. by vm_compute. Qed.

(** * Further properties of the pipeline *)

(** ** State file and fatal errors *)

Section StateAndCatalog.

Lemma filter_all {A} (keep : A -> bool) (l : list A) :
  (forall x, In x l -> keep x = true) -> List.filter keep l = l.
Proof.
  induction l as [|x l IH]; [done|]. intros H. simpl.
  rewrite (H x) by (by left). f_equal. apply IH. intros y Hy. apply H. by right.
Qed.

Lemma filter_swap {A} (p q : A -> bool) (l : list A) :
  List.filter p (List.filter q l) = List.filter q (List.filter p l).
Proof.
  induction l as [|x l IH]; [done|]. simpl.
  destruct (p x) eqn:Ep, (q x) eqn:Eq; simpl; rewrite ?Ep, ?Eq, IH; done.
Qed.

Lemma contains_empty s : PyStr.contains "" s = true.
Proof. destruct s; [done|]. by rewrite contains_cons, startswith_empty. Qed.

Lemma step7_filter datasets metadata :
  step7_find_new_or_updated_files datasets metadata =
  List.filter (is_new_or_updated metadata) datasets.
Proof. unfold step7_find_new_or_updated_files. by rewrite fold_append_if. Qed.

Lemma step6_filter config all_datasets :
  step6_filter_hospital_datasets config all_datasets =
  List.filter (is_hospital_related (PyStr.lower (THEME_FILTER config)))
              all_datasets.
Proof. unfold step6_filter_hospital_datasets. cbv zeta. by rewrite fold_append_if. Qed.

Lemma run_fatal config sched w e :
  fatal_error w = Some e -> run_complete_pipeline config sched w = (inl e, w).
Proof.
  unfold fatal_error, run_complete_pipeline, bind, step3_load_previous_metadata,
    step5_fetch_all_datasets.
  destruct (metadata_file w); [| by intros [= <-] |];
    destruct (api_response w); by intros [= <-].
Qed.

End StateAndCatalog.

(** X2. An undecodable state file, or else a failed catalog fetch, ends the
    run with that error before anything is written: the world is unchanged. *)
Theorem fatal_error_stops_run :
  forall config sched w e,
    fatal_error w = Some e ->
    run_complete_pipeline config sched w = (inl e, w).
Proof. exact run_fatal. Qed.

Lemma fatal_error_stops_run_witness :
  run_complete_pipeline step1_load_constants RunExample.all_started
    MoreExamples.broken_catalog =
  (inl (URLError "catalog"), MoreExamples.broken_catalog).
Proof.
  apply (fatal_error_stops_run step1_load_constants RunExample.all_started
           MoreExamples.broken_catalog (URLError "catalog")).
  reflexivity.
Defined.

(** X3. On a first run, when there is no state file, the loaded state is
    empty and the change detector returns every candidate. *)
Theorem first_run_diff_is_everything :
  forall w datasets,
    metadata_file w = NoFile ->
    exists metadata,
      step3_load_previous_metadata w = (inr metadata, w) /\
      files metadata = ∅ /\
      step7_find_new_or_updated_files datasets metadata = datasets.
Proof.
  intros w datasets H. exists {| files := ∅; last_run := None |}.
  unfold step3_load_previous_metadata. rewrite H. split; [done|]. split; [done|].
  rewrite step7_filter. apply filter_all. intros d _.
  unfold is_new_or_updated. cbn [files]. by rewrite lookup_empty.
Qed.

Lemma first_run_diff_is_everything_witness :
  exists metadata,
    step3_load_previous_metadata
      (RunExample.world NoFile [RunExample.good]) =
      (inr metadata, RunExample.world NoFile [RunExample.good]) /\
    files metadata = ∅ /\
    step7_find_new_or_updated_files
      [RunExample.good; RunExample.no_distribution] metadata =
    [RunExample.good; RunExample.no_distribution].
Proof.
  apply (first_run_diff_is_everything
           (RunExample.world NoFile [RunExample.good])
           [RunExample.good; RunExample.no_distribution]).
  reflexivity.
Defined.

(** X4. With an empty topic the relevance filter keeps every descriptor: the
    empty string occurs in every title. *)
Theorem empty_topic_keeps_everything :
  forall config all_datasets,
    THEME_FILTER config = "" ->
    step6_filter_hospital_datasets config all_datasets = all_datasets.
Proof.
  intros config all_datasets H. rewrite step6_filter, H.
  apply filter_all. intros d _. unfold is_hospital_related. cbv zeta.
  cbn [PyStr.lower]. by rewrite contains_empty.
Qed.

Lemma empty_topic_keeps_everything_witness :
  step6_filter_hospital_datasets MoreExamples.any_topic
    [MoreExamples.dialysis; RunExample.good] =
  [MoreExamples.dialysis; RunExample.good].
Proof.
  apply (empty_topic_keeps_everything MoreExamples.any_topic
           [MoreExamples.dialysis; RunExample.good]).
  reflexivity.
Defined.

(** X5. The relevance filter and the change detector commute: filtering the
    changed descriptors gives what detecting changes among the relevant ones
    gives. *)
Theorem filter_and_diff_commute :
  forall config datasets metadata,
    step7_find_new_or_updated_files
      (step6_filter_hospital_datasets config datasets) metadata =
    step6_filter_hospital_datasets config
      (step7_find_new_or_updated_files datasets metadata).
Proof.
  intros config datasets metadata.
  by rewrite !step7_filter, !step6_filter, filter_swap.
Qed.

(** X6. Recording markers never drops an identifier from the state: the
    identifiers known afterwards are those known before together with those
    of the processed descriptors; [last_run] is untouched. *)
Theorem step12_update_metadata_domain :
  forall metadata processed,
    dom (files (step12_update_metadata metadata processed)) =
      dom (files metadata) ∪ list_to_set (map identifier processed) /\
    last_run (step12_update_metadata metadata processed) = last_run metadata.
Proof.
  intros metadata processed. split; [|apply step12_last_run].
  revert metadata. induction processed as [|d rest IH]; intros metadata.
  - cbn [step12_update_metadata fold_left map list_to_set].
    by rewrite (right_id_L ∅ (∪)).
  - rewrite step12_cons, IH. cbn [record_marker files map list_to_set].
    by rewrite dom_insert_L, (comm_L (∪) {[identifier d]}), (assoc_L (∪)).
Qed.

(** ** More on the column-name cleaner *)

Section CleanerBounds.

Import NormalizeSpec.

Lemma lower_length s : String.length (PyStr.lower s) = String.length s.
Proof. induction s as [|c t IH]; [done|]. simpl. by rewrite IH. Qed.

Lemma map_chars_length f s : String.length (map_chars f s) = String.length s.
Proof. induction s as [|c t IH]; [done|]. simpl. by rewrite IH. Qed.

Lemma delete_chars_length p s :
  String.length (delete_chars p s) <= String.length s.
Proof.
  induction s as [|c t IH]; [done|]. simpl.
  destruct (p c); simpl; lia.
Qed.

Lemma collapse_runs_length s :
  String.length (collapse_runs s) <= String.length s.
Proof.
  induction s as [|c t IH]; [done|]. rewrite collapse_runs_cons.
  destruct (Ascii.eqb c "_" && PyStr.startswith t "_");
    cbn [String.length]; lia.
Qed.

Lemma strip_leading_length s :
  String.length (strip_leading s) <= String.length s.
Proof.
  destruct s as [|c t]; [done|]. simpl.
  destruct (Ascii.eqb c "_"); simpl; lia.
Qed.

Lemma drop_last_length s :
  String.length (PyStr.drop_last s) <= String.length s.
Proof.
  induction s as [|c t IH]; [done|].
  destruct t as [|d u]; [simpl; lia|].
  change (PyStr.drop_last (String c (String d u)))
    with (String c (PyStr.drop_last (String d u))).
  cbn [String.length] in *. lia.
Qed.

Lemma strip_trailing_length s :
  String.length (strip_trailing s) <= String.length s.
Proof.
  unfold strip_trailing. destruct (PyStr.last_char s) as [c|]; [|done].
  destruct (Ascii.eqb c "_"); [apply drop_last_length|done].
Qed.

Lemma normalize_length s :
  String.length (normalize s) <= String.length s.
Proof.
  unfold normalize.
  etransitivity; [apply strip_trailing_length|].
  etransitivity; [apply strip_leading_length|].
  etransitivity; [apply collapse_runs_length|].
  rewrite map_chars_length.
  etransitivity; [apply delete_chars_length|].
  by rewrite lower_length.
Qed.

End CleanerBounds.

(** X7. Among ASCII names, the ones the cleaner leaves unchanged are exactly
    the names in normal form: no upper-case letter, quote or separator, no
    doubled underscore, no underscore at either end. *)
Theorem step10_fixed_points :
  forall name,
    is_ascii name = true ->
    (step10_clean_column_name name = name <->
     NormalizeSpec.is_normal_form name = true).
Proof.
  intros name _. rewrite step10_normalize. split.
  - intros H. rewrite <- H. apply normalize_normal_form.
  - apply normal_form_fixed.
Qed.

Lemma step10_fixed_points_witness :
  step10_clean_column_name "facility_id" = "facility_id" <->
  NormalizeSpec.is_normal_form "facility_id" = true.
Proof.
  apply (step10_fixed_points "facility_id").
  vm_compute. reflexivity.
Defined.

(** X8. The cleaner never makes an ASCII name longer. *)
Theorem step10_never_longer :
  forall name,
    is_ascii name = true ->
    String.length (step10_clean_column_name name) <= String.length name.
Proof. intros name _. rewrite step10_normalize. apply normalize_length. Qed.

Lemma step10_never_longer_witness :
  String.length (step10_clean_column_name "Patient's Name (%)") <=
  String.length "Patient's Name (%)".
Proof.
  apply (step10_never_longer "Patient's Name (%)").
  vm_compute. reflexivity.
Defined.

(** ** More on the worker pool *)

Section Pool.

Context {T R : Type}.
Implicit Types (worker : T -> M R) (items : list T).

Lemma executor_map_success started worker items w rs w' :
  executor_map started worker items w = (inr rs, w') ->
  length rs = length items /\
  w' = run_to_completion worker items w /\
  forall started', executor_map started' worker items w = (inr rs, w').
Proof.
  revert started w rs.
  induction items as [|x rest IH]; intros started w rs H.
  - injection H as <- <-. done.
  - rewrite executor_map_cons in H.
    destruct (worker x w) as [[e|r] w1] eqn:Ex; [done|].
    destruct (executor_map (pred started) worker rest w1) as [[e|rs'] w2] eqn:Er;
      [done|].
    injection H as <- <-.
    destruct (IH _ _ _ Er) as (Hlen & Hw & Hany).
    split; [cbn [length]; by rewrite Hlen|]. split.
    + cbn [run_to_completion]. by rewrite Ex.
    + intros started'. by rewrite executor_map_cons, Ex, Hany.
Qed.

Lemma executor_map_failure started worker items w e w' :
  executor_map started worker items w = (inl e, w') ->
  exists pre x post rs w1 e0 w2,
    items = pre ++ x :: post /\
    executor_map started worker pre w = (inr rs, w1) /\
    worker x w1 = (inl e0, w2) /\
    e = reraise e0.
Proof.
  revert started w.
  induction items as [|x rest IH]; intros started w H; [done|].
  rewrite executor_map_cons in H.
  destruct (worker x w) as [[e0|r] w1] eqn:Ex.
  - injection H as <- <-. by exists [], x, rest, [], w, e0, w1.
  - destruct (executor_map (pred started) worker rest w1) as [[e1|rs'] w2] eqn:Er;
      [|done].
    injection H as <- <-.
    destruct (IH _ _ Er) as (pre & y & post & rs & w3 & e0 & w4 & -> & Hpre & Hy & ->).
    exists (x :: pre), y, post, (r :: rs), w3, e0, w4.
    split; [done|]. split; [|done].
    rewrite executor_map_cons, Ex.
    destruct (executor_map_success _ _ _ _ _ _ Hpre) as (_ & _ & Hany).
    by rewrite Hany.
Qed.

Lemma reraise_not_stop e : reraise e <> StopIteration.
Proof. by destruct e. Qed.

End Pool.

(** X10. When the pool raises, some item failed after all the items before it
    had succeeded, and the error raised is that item's, except that a
    [StopIteration] comes out as a [RuntimeError]: the pool never raises
    [StopIteration]. *)
Theorem executor_map_error :
  forall T R started (worker : T -> M R) items w e w',
    executor_map started worker items w = (inl e, w') ->
    e <> StopIteration /\
    exists pre x post rs w1 e0 w2,
      items = pre ++ x :: post /\
      executor_map started worker pre w = (inr rs, w1) /\
      worker x w1 = (inl e0, w2) /\
      e = reraise e0.
Proof.
  intros T R started worker items w e w' H.
  pose proof (executor_map_failure _ _ _ _ _ _ H) as Hf.
  split; [|done].
  destruct Hf as (? & ? & ? & ? & ? & e0 & ? & _ & _ & _ & ->).
  apply reraise_not_stop.
Qed.

Lemma executor_map_error_witness :
  let w := RunExample.world NoFile [] in
  let worker := step8_download_single_file step1_load_constants in
  let e := ValueError "No distribution found for yv7e-xc69" in
  e <> StopIteration /\
  exists pre x post rs w1 e0 w2,
    [RunExample.good; RunExample.no_distribution] = pre ++ x :: post /\
    executor_map 1 worker pre w = (inr rs, w1) /\
    worker x w1 = (inl e0, w2) /\
    e = reraise e0.
Proof.
  apply (executor_map_error _ _ 1
           (step8_download_single_file step1_load_constants)
           [RunExample.good; RunExample.no_distribution]
           (RunExample.world NoFile [])
           (ValueError "No distribution found for yv7e-xc69")
           (write_csv "downloads/xubh-q36u.csv" RunExample.raw
              (RunExample.world NoFile []))).
  vm_compute. reflexivity.
Defined.

(** ** The download phase *)

Section Download.

Lemma step8_outcome config dataset w :
  step8_download_single_file config dataset w =
  match fetched w dataset with
  | Some t =>
      (inr (download_path config dataset, identifier dataset),
       write_csv (download_path config dataset) t w)
  | None => (fst (step8_download_single_file config dataset w), w)
  end /\
  (fetched w dataset = None ->
   exists e, fst (step8_download_single_file config dataset w) = inl e).
Proof.
  unfold step8_download_single_file, fetched, download_path.
  destruct (distribution dataset) as [[|first rest]|];
    try (split; [done|intros _; by eexists]).
  destruct (downloadURL first) as [url|];
    [|split; [done|intros _; by eexists]].
  unfold bind, urlretrieve.
  destruct (remote_files w !! url); split; try done. intros _. by eexists.
Qed.

Lemma step8_success config dataset w r w' :
  step8_download_single_file config dataset w = (inr r, w') ->
  exists t,
    fetched w dataset = Some t /\
    r = (download_path config dataset, identifier dataset) /\
    w' = write_csv (download_path config dataset) t w.
Proof.
  destruct (step8_outcome config dataset w) as [E Hnone].
  destruct (fetched w dataset) as [t|].
  - rewrite E. intros [= <- <-]. by exists t.
  - destruct Hnone as [e He]; [done|]. rewrite E, He. done.
Qed.

Lemma step9_cons config started d rest w :
  step9_download_files_parallel config started (d :: rest) w =
  match step8_download_single_file config d w with
  | (inr r, w1) =>
      match step9_download_files_parallel config (pred started) rest w1 with
      | (inr rs, w2) => (inr (r :: rs), w2)
      | (inl e, w2) => (inl e, w2)
      end
  | (inl e, w1) =>
      (inl (reraise e),
       run_to_completion (step8_download_single_file config)
         (take (pred started) rest) w1)
  end.
Proof. reflexivity. Qed.

Lemma step9_results config started datasets w results w1 :
  step9_download_files_parallel config started datasets w = (inr results, w1) ->
  results = map (fun d => (download_path config d, identifier d)) datasets.
Proof.
  revert started w results.
  induction datasets as [|d rest IH]; intros started w results H.
  - by injection H as <- <-.
  - rewrite step9_cons in H.
    destruct (step8_download_single_file config d w) as [[e|r] w0] eqn:E8;
      [done|].
    destruct (step9_download_files_parallel config (pred started) rest w0)
      as [[e|rs] w2] eqn:E9; [done|].
    injection H as <- <-.
    apply step8_success in E8 as (t & _ & -> & _).
    cbn [map]. by rewrite (IH _ _ _ E9).
Qed.

Lemma download_path_default file_id :
  os_path_join "downloads" (file_id +:+ ".csv") =
  if PyStr.startswith file_id "/" then file_id +:+ ".csv"
  else "downloads/" +:+ file_id +:+ ".csv".
Proof.
  unfold os_path_join.
  assert (PyStr.startswith (file_id +:+ ".csv") "/" = PyStr.startswith file_id "/")
    as ->.
  { destruct file_id as [|c t]; [done|].
    change (String c t +:+ ".csv") with (String c (t +:+ ".csv")).
    by rewrite !startswith_cons, !startswith_empty. }
  by destruct (PyStr.startswith file_id "/").
Qed.

End Download.

(** X11. A successful download phase returns, in input order, one pair per
    dataset: its download path and its identifier. *)
Theorem step9_download_files_parallel_results :
  forall config started datasets w results w1,
    step9_download_files_parallel config started datasets w = (inr results, w1) ->
    results = map (fun d => (download_path config d, identifier d)) datasets.
Proof. exact step9_results. Qed.

Lemma step9_download_files_parallel_results_witness :
  [("downloads/xubh-q36u.csv", "xubh-q36u")] =
    map (fun d => (download_path step1_load_constants d, identifier d))
        [RunExample.good].
Proof.
  apply (step9_download_files_parallel_results step1_load_constants 0
           [RunExample.good] (RunExample.world NoFile [])
           [("downloads/xubh-q36u.csv", "xubh-q36u")]
           (write_csv "downloads/xubh-q36u.csv" RunExample.raw
              (RunExample.world NoFile []))).
  vm_compute. reflexivity.
Defined.

(** X13. In the default configuration a downloaded file is stored under
    [downloads/] unless the identifier starts with a slash: then the
    directory is dropped and the file is written at the identifier's own
    absolute path. *)
Theorem step8_download_location :
  forall dataset w path file_id w',
    step8_download_single_file step1_load_constants dataset w =
      (inr (path, file_id), w') ->
    file_id = identifier dataset /\
    path = (if PyStr.startswith (identifier dataset) "/"
            then identifier dataset +:+ ".csv"
            else "downloads/" +:+ identifier dataset +:+ ".csv") /\
    is_Some (csv_files w' !! path).
Proof.
  intros dataset w path file_id w' H.
  apply step8_success in H as (t & _ & [= -> ->] & ->).
  split; [done|]. split; [apply download_path_default|].
  cbn [write_csv csv_files]. by rewrite lookup_insert_eq.
Qed.

Lemma step8_download_location_witness :
  "/tmp/hospital" = identifier MoreExamples.absolute /\
  "/tmp/hospital.csv" =
    (if PyStr.startswith (identifier MoreExamples.absolute) "/"
     then identifier MoreExamples.absolute +:+ ".csv"
     else "downloads/" +:+ identifier MoreExamples.absolute +:+ ".csv") /\
  is_Some (csv_files
             (write_csv "/tmp/hospital.csv" RunExample.raw
                (RunExample.world NoFile []))
           !! "/tmp/hospital.csv").
Proof.
  apply (step8_download_location MoreExamples.absolute
           (RunExample.world NoFile [])).
  vm_compute. reflexivity.
Defined.

(** ** Whole runs *)

Section WholeRuns.

Lemma step7_files_only datasets metadata stamp :
  step7_find_new_or_updated_files datasets
    {| files := files metadata; last_run := stamp |} =
  step7_find_new_or_updated_files datasets metadata.
Proof. reflexivity. Qed.

(** The state a run that returned normally leaves in the state file, read
    back: the diff of the same catalog against it is empty. *)
Lemma saved_state_is_synced config sched w metadata all_datasets w' :
  step3_load_previous_metadata w = (inr metadata, w) ->
  api_response w = inr all_datasets ->
  consistent_markers (step6_filter_hospital_datasets config all_datasets) ->
  run_complete_pipeline config sched w = (inr tt, w') ->
  api_response w' = inr all_datasets /\
  exists saved,
    step3_load_previous_metadata w' = (inr saved, w') /\
    step7_find_new_or_updated_files
      (step6_filter_hospital_datasets config all_datasets) saved = [].
Proof.
  intros H3 H5 Hc Hrun.
  rewrite (run_complete_pipeline_unfold _ _ _ _ _ H3 H5) in Hrun.
  cbv zeta in Hrun.
  set (relevant_datasets := step6_filter_hospital_datasets config all_datasets) in *.
  destruct (step7_find_new_or_updated_files relevant_datasets metadata)
    as [|d0 rest] eqn:En.
  { injection Hrun as <-. split; [done|]. by exists metadata. }
  rewrite <- En in Hrun.
  pose proof (step9_frame config (started_downloads sched)
                (step7_find_new_or_updated_files relevant_datasets metadata) w)
    as F9.
  destruct (step9_download_files_parallel _ _ _ w) as [[e|results] w1]; [done|].
  pose proof (step11_parallel_frame config (started_transforms sched) results w1)
    as F11.
  destruct (step11_process_files_parallel _ _ results w1) as [[e|processed] w2];
    [done|].
  cbn [snd] in F9, F11.
  destruct F9 as (_ & A9 & _ & _), F11 as (_ & A11 & _ & _).
  injection Hrun as <-. split.
  - cbn [set_metadata_file api_response]. by rewrite A11, A9.
  - eexists. split; [reflexivity|].
    by rewrite step7_files_only, second_diff_empty.
Qed.

End WholeRuns.

(** X17. A run that returned normally is not repeated by the next one.  When
    relevant descriptors that share an identifier share a marker and the
    catalog is unchanged, the state read back after the run gives an empty
    diff, and a run at any later time returns without writing anything: the
    state file keeps the [last_run] of the first run. *)
Theorem second_run_changes_nothing :
  forall config sched sched' w metadata all_datasets w' later,
    step3_load_previous_metadata w = (inr metadata, w) ->
    api_response w = inr all_datasets ->
    consistent_markers (step6_filter_hospital_datasets config all_datasets) ->
    run_complete_pipeline config sched w = (inr tt, w') ->
    exists saved,
      step3_load_previous_metadata w' = (inr saved, w') /\
      step7_find_new_or_updated_files
        (step6_filter_hospital_datasets config all_datasets) saved = [] /\
      run_complete_pipeline config sched' (set_clock later w') =
        (inr tt, set_clock later w') /\
      metadata_file
        (snd (run_complete_pipeline config sched' (set_clock later w'))) =
      metadata_file w'.
Proof.
  intros config sched sched' w metadata all_datasets w' later H3 H5 Hc Hrun.
  destruct (saved_state_is_synced _ _ _ _ _ _ H3 H5 Hc Hrun)
    as (Hapi & saved & Hload & Hdiff).
  exists saved. split; [done|]. split; [done|].
  assert (run_complete_pipeline config sched' (set_clock later w') =
          (inr tt, set_clock later w')) as Hnext.
  { rewrite (run_complete_pipeline_unfold config sched' _ saved all_datasets).
    - cbv zeta. by rewrite Hdiff.
    - unfold step3_load_previous_metadata in *. cbn [set_clock metadata_file].
      destruct (metadata_file w'); [|done|]; by injection Hload as <-.
    - done. }
  split; [done|]. by rewrite Hnext.
Qed.

Lemma second_run_changes_nothing_witness :
  let w := RunExample.world (Stored RunExample.synced) [RunExample.good_later] in
  let w' :=
    snd (run_complete_pipeline step1_load_constants RunExample.all_started w) in
  let later := "2024-03-02T06:00:00" in
  exists saved,
    step3_load_previous_metadata w' = (inr saved, w') /\
    step7_find_new_or_updated_files
      (step6_filter_hospital_datasets step1_load_constants [RunExample.good_later])
      saved = [] /\
    run_complete_pipeline step1_load_constants RunExample.all_started
      (set_clock later w') = (inr tt, set_clock later w') /\
    metadata_file
      (snd (run_complete_pipeline step1_load_constants RunExample.all_started
              (set_clock later w'))) =
    metadata_file w'.
Proof.
  apply (second_run_changes_nothing step1_load_constants
           RunExample.all_started RunExample.all_started
           (RunExample.world (Stored RunExample.synced) [RunExample.good_later])
           RunExample.synced [RunExample.good_later]).
  - reflexivity.
  - reflexivity.
  - apply check_consistent_markers_sound. vm_compute. reflexivity.
  - vm_compute. reflexivity.
Defined.
